(** * logrusbun: a bun query hook that logs through logrus

    Shallow embedding of [logrusbun.go]: the functional options
    ([WithEnabled], [WithVerbose], [FromEnv], [WithQueryHookOptions]),
    the constructor [NewQueryHook], the two hook methods and the
    operation-name helpers, followed by the properties of the
    specification that were checked against them. *)

From Stdlib Require Import ZArith Ascii String List Bool Lia.
From stdpp Require Import base option gmap strings.

Local Open Scope string_scope.
Local Open Scope Z_scope.

(** ** Go values the hook works with *)

(** [time.Duration] is an [int64] count of nanoseconds. *)
Definition time_Duration := Z.

Definition minDuration : time_Duration := - 2 ^ 63.
Definition maxDuration : time_Duration := 2 ^ 63 - 1.

Definition Nanosecond : time_Duration := 1.
Definition Microsecond : time_Duration := 1000 * Nanosecond.
Definition Millisecond : time_Duration := 1000 * Microsecond.
Definition Second : time_Duration := 1000 * Millisecond.

(** A [time.Time] instant, as nanoseconds on one time line. *)
Definition time_Time := Z.

(** [Time.Sub]: the difference, clamped to what a [time.Duration] can hold. *)
Definition Time_Sub (t u : time_Time) : time_Duration :=
  let d := t - u in
  if d <? minDuration then minDuration
  else if maxDuration <? d then maxDuration
  else d.

(** [logrus.Level] is a [uint32]; the constants follow logrus's [iota]. *)
Definition Level := N.

Module logrus.
Definition PanicLevel : Level := 0%N.
Definition FatalLevel : Level := 1%N.
Definition ErrorLevel : Level := 2%N.
Definition WarnLevel : Level := 3%N.
Definition InfoLevel : Level := 4%N.
Definition DebugLevel : Level := 5%N.
Definition TraceLevel : Level := 6%N.
End logrus.

(** A Go [error] value as [AfterQuery] tells them apart: the two
    sentinels of database/sql, compared by identity, and everything else
    (a wrapped sentinel included), of which only the message is kept.
    A nil error is [None] at type [option error]. *)
Inductive error : Type :=
  | ErrNoRows
  | ErrTxDone
  | OtherError (msg : string).

Definition error_Error (e : error) : string :=
  match e with
  | ErrNoRows => "sql: no rows in result set"
  | ErrTxDone => "sql: transaction has already been committed or rolled back"
  | OtherError msg => msg
  end.

(** The dynamic type of [event.QueryAppender], as far as the type switch
    of [eventOperation] distinguishes it. *)
Inductive QueryAppender : Type :=
  | SelectQuery
  | InsertQuery
  | UpdateQuery
  | DeleteQuery
  | CreateTableQuery
  | DropTableQuery
  | OtherAppender.

(** The fields of [bun.QueryEvent] that the hook reads. *)
Record QueryEvent : Type := mkQueryEvent {
  ev_QueryAppender : QueryAppender;
  ev_Query : string;
  ev_StartTime : time_Time;
  ev_Err : option error
}.

(** ** Operation names *)

(** [strings.Index(name, " ")], with [None] for Go's -1. *)
Fixpoint strings_Index_space (name : string) : option nat :=
  match name with
  | EmptyString => None
  | String c rest =>
      if Ascii.eqb c " "%char then Some O
      else match strings_Index_space rest with
           | Some i => Some (S i)
           | None => None
           end
  end.

(** The slice [name[:n]], for [n] within the string. *)
Definition slice_to (n : nat) (name : string) : string := substring 0 n name.

Definition queryOperation (name : string) : string :=
  let name :=
    match strings_Index_space name with
    | Some idx => if (0 <? idx)%nat then slice_to idx name else name
    | None => name
    end in
  let name :=
    if (16 <? String.length name)%nat then slice_to 16 name else name in
  name.

Definition eventOperation (event : QueryEvent) : string :=
  match ev_QueryAppender event with
  | SelectQuery => "SELECT"
  | InsertQuery => "INSERT"
  | UpdateQuery => "UPDATE"
  | DeleteQuery => "DELETE"
  | CreateTableQuery => "CREATE TABLE"
  | DropTableQuery => "DROP TABLE"
  | OtherAppender => queryOperation (ev_Query event)
  end.

(** ** [time.Duration.String]

    The buffer of the Go code is filled from its end; [buf] below is the
    part written so far, so writing a byte puts it in front. *)

Definition digit_byte (d : Z) : ascii := ascii_of_nat (Z.to_nat d + 48).

Fixpoint fmtInt_loop (fuel : nat) (v : Z) (buf : string) : string :=
  match fuel with
  | O => buf
  | S fuel' =>
      if 0 <? v then fmtInt_loop fuel' (v / 10) (String (digit_byte (v mod 10)) buf)
      else buf
  end.

(** [fmtInt]: a [uint64] has at most 20 decimal digits. *)
Definition fmtInt (buf : string) (v : Z) : string :=
  if v =? 0 then String "0" buf else fmtInt_loop 20 v buf.

Fixpoint fmtFrac_loop (prec : nat) (v : Z) (print : bool) (buf : string)
  : string * bool * Z :=
  match prec with
  | O => (buf, print, v)
  | S prec' =>
      let digit := v mod 10 in
      let print := print || negb (digit =? 0) in
      let buf := if print then String (digit_byte digit) buf else buf in
      fmtFrac_loop prec' (v / 10) print buf
  end.

Definition fmtFrac (buf : string) (v : Z) (prec : nat) : string * Z :=
  let '(buf, print, v) := fmtFrac_loop prec v false buf in
  (if print then String "." buf else buf, v).

(** The two bytes of the micro sign, U+00B5, in UTF-8. *)
Definition micro_sign : string :=
  String (ascii_of_nat 194) (String (ascii_of_nat 181) EmptyString).

Definition Duration_String (d : time_Duration) : string :=
  let u := d mod 2 ^ 64 in
  let neg := d <? 0 in
  let u := if neg then (- u) mod 2 ^ 64 else u in
  if u <? Second then
    if u =? 0 then "0s"
    else
      let '(prec, buf) :=
        if u <? Microsecond then (0%nat, "ns")
        else if u <? Millisecond then (3%nat, micro_sign +:+ "s")
        else (6%nat, "ms") in
      let '(buf, u) := fmtFrac buf u prec in
      let buf := fmtInt buf u in
      if neg then String "-" buf else buf
  else
    let '(buf, u) := fmtFrac "s" u 9 in
    let buf := fmtInt buf (u mod 60) in
    let u := u / 60 in
    let buf :=
      if 0 <? u then
        let buf := fmtInt (String "m" buf) (u mod 60) in
        let u := u / 60 in
        if 0 <? u then fmtInt (String "h" buf) u else buf
      else buf in
    if neg then String "-" buf else buf.

(** ** Panics

    What the code passes to [panic], and the run-time panic of a nil
    pointer or nil interface. Nothing in the package calls [recover]:
    a panic ends the call it happens in and every caller. *)
Inductive PanicValue : Type :=
  | PanicString (s : string)
  | PanicError (err : string)
  | PanicUnsupportedLevel (level : Level)
  | PanicNilDereference.

Inductive Result (A : Type) : Type :=
  | Ok (a : A)
  | Panicked (p : PanicValue).

Arguments Ok {A} a.
Arguments Panicked {A} p.

Definition bind {A B : Type} (r : Result A) (k : A -> Result B) : Result B :=
  match r with
  | Ok a => k a
  | Panicked p => Panicked p
  end.

Notation "x <- r ;; k" := (bind r (fun x => k))
  (at level 100, r at next level, right associativity).

(** ** The logging backend

    A [logrus.FieldLogger] is an interface value; the hook is observed
    through the calls it makes on it. What a logger does inside [Fatal]
    or [Panic] after writing the entry is the logger's own business. *)
Module FieldLogger.
Definition t := nat.
Inductive Method : Type := Debug | Info | Warn | Error | Fatal | Panic.
Record Call : Type := mkCall { logger : t; method : Method; message : string }.
End FieldLogger.

(** ** Templates

    [LogEntryVars] is the data a template is executed on. *)
Record LogEntryVars : Type := mkLogEntryVars {
  Timestamp : time_Time;
  Query : string;
  Operation : string;
  Duration : time_Duration;
  Error : option error
}.

(** text/template, as the hook uses it: [template.New(name).Parse(text)]
    gives a template or an error, [Execute] the rendered text or an
    error. *)
Class TemplateEngine : Type := {
  Template : Type;
  template_Parse : string -> string -> Template + string;
  template_Execute : Template -> LogEntryVars -> string + string
}.

(** ** The hook *)

Record QueryHookOptions : Type := mkQueryHookOptions {
  LogSlow : time_Duration;
  Logger : option FieldLogger.t;
  QueryLevel : Level;
  SlowLevel : Level;
  ErrorLevel : Level;
  MessageTemplate : string;
  ErrorTemplate : string
}.

(** The three pointer fields are [None] when nil; [T] is the type of
    parsed templates. *)
Record QueryHook (T : Type) : Type := mkQueryHook {
  enabled : bool;
  verbose : bool;
  opts : option QueryHookOptions;
  errorTemplate : option T;
  messageTemplate : option T
}.

Arguments mkQueryHook {T}.
Arguments enabled {T}.
Arguments verbose {T}.
Arguments opts {T}.
Arguments errorTemplate {T}.
Arguments messageTemplate {T}.

Section Hook.
Context `{TemplateEngine}.

(** An [Option] mutates the hook under construction, or panics. *)
Definition Option : Type := QueryHook Template -> Result (QueryHook Template).

Definition WithEnabled (on : bool) : Option := fun h =>
  Ok (mkQueryHook on (verbose h) (opts h) (errorTemplate h) (messageTemplate h)).

Definition WithVerbose (on : bool) : Option := fun h =>
  Ok (mkQueryHook (enabled h) on (opts h) (errorTemplate h) (messageTemplate h)).

(** The loop of [FromEnv]: the first key that is set decides, then
    [break]. [env !! key] is [os.LookupEnv(key)]. *)
Fixpoint FromEnv_loop (env : gmap string string) (keys : list string)
  (h : QueryHook Template) : QueryHook Template :=
  match keys with
  | [] => h
  | key :: keys' =>
      match env !! key with
      | Some v =>
          mkQueryHook (negb (String.eqb v "") && negb (String.eqb v "0"))
                      (String.eqb v "2")
                      (opts h) (errorTemplate h) (messageTemplate h)
      | None => FromEnv_loop env keys' h
      end
  end.

Definition FromEnv (env : gmap string string) (keys : list string) : Option :=
  let keys := match keys with [] => ["BUNDEBUG"] | _ => keys end in
  fun h => Ok (FromEnv_loop env keys h).

Definition defaultErrorTemplate : string :=
  "{{.Operation}}[{{.Duration}}]: {{.Query}}: {{.Error}}".
Definition defaultMessageTemplate : string :=
  "{{.Operation}}[{{.Duration}}]: {{.Query}}".

(** The copy of [opts] the closure stores, defaults filled in. *)
Definition fill_defaults (o : QueryHookOptions) : QueryHookOptions :=
  let o :=
    if String.eqb (ErrorTemplate o) "" then
      mkQueryHookOptions (LogSlow o) (Logger o) (QueryLevel o) (SlowLevel o)
        (ErrorLevel o) (MessageTemplate o) defaultErrorTemplate
    else o in
  if String.eqb (MessageTemplate o) "" then
    mkQueryHookOptions (LogSlow o) (Logger o) (QueryLevel o) (SlowLevel o)
      (ErrorLevel o) defaultMessageTemplate (ErrorTemplate o)
  else o.

Definition WithQueryHookOptions (o : QueryHookOptions) : Option := fun h =>
  let o := fill_defaults o in
  match template_Parse "ErrorTemplate" (ErrorTemplate o) with
  | inr err => Panicked (PanicError err)
  | inl errorTemplate' =>
      match template_Parse "MessageTemplate" (MessageTemplate o) with
      | inr err => Panicked (PanicError err)
      | inl messageTemplate' =>
          Ok (mkQueryHook (enabled h) (verbose h) (Some o)
                (Some errorTemplate') (Some messageTemplate'))
      end
  end.

(** [new(QueryHook)]: every field at its zero value. *)
Definition new_QueryHook : QueryHook Template := mkQueryHook false false None None None.

Fixpoint apply_options (options : list Option) (h : QueryHook Template) : Result (QueryHook Template) :=
  match options with
  | [] => Ok h
  | opt :: rest => h' <- opt h ;; apply_options rest h'
  end.

Definition NewQueryHook (options : list Option) : Result (QueryHook Template) :=
  h <- apply_options options new_QueryHook ;;
  match opts h with
  | None => Panicked (PanicString "logrus settings not set.")
  | Some _ => Ok h
  end.

(** [BeforeQuery] hands its context back. *)
Definition BeforeQuery {Ctx : Type} (h : QueryHook Template) (ctx : Ctx)
  (event : QueryEvent) : Ctx := ctx.

(** The first [switch] of [AfterQuery]: the outcomes that are not
    logged unless the hook is verbose. *)
Definition quiet_outcome (err : option error) : bool :=
  match err with
  | None | Some ErrNoRows | Some ErrTxDone => true
  | Some (OtherError _) => false
  end.

(** The second [switch]: [(isError, level)]. *)
Definition classify (o : QueryHookOptions) (dur : time_Duration)
  (err : option error) : bool * Level :=
  match err with
  | None | Some ErrNoRows =>
      if (0 <? LogSlow o) && (LogSlow o <=? dur) then (false, SlowLevel o)
      else (false, QueryLevel o)
  | _ => (true, ErrorLevel o)
  end.

Definition deref {A : Type} (p : option A) : Result A :=
  match p with
  | Some a => Ok a
  | None => Panicked PanicNilDereference
  end.

Definition execute (t : option Template) (args : LogEntryVars) : Result string :=
  t <- deref t ;;
  match template_Execute t args with
  | inl msg => Ok msg
  | inr err => Panicked (PanicError err)
  end.

(** The last [switch]: one call on the logger, or a panic. *)
Definition dispatch (o : QueryHookOptions) (level : Level) (msg : string)
  : Result (list FieldLogger.Call) :=
  let call m := l <- deref (Logger o) ;; Ok [FieldLogger.mkCall l m msg] in
  if N.eqb level logrus.DebugLevel then call FieldLogger.Debug
  else if N.eqb level logrus.InfoLevel then call FieldLogger.Info
  else if N.eqb level logrus.WarnLevel then call FieldLogger.Warn
  else if N.eqb level logrus.ErrorLevel then call FieldLogger.Error
  else if N.eqb level logrus.FatalLevel then call FieldLogger.Fatal
  else if N.eqb level logrus.PanicLevel then call FieldLogger.Panic
  else Panicked (PanicUnsupportedLevel level).

(** The [LogEntryVars] that [AfterQuery] builds. *)
Definition entry_vars (now : time_Time) (event : QueryEvent) : LogEntryVars :=
  mkLogEntryVars now (ev_Query event) (eventOperation event)
    (Time_Sub now (ev_StartTime event)) (ev_Err event).

(** [AfterQuery]; [now] is what [time.Now()] returns when it is
    reached. The result lists the calls made on the logger. *)
Definition AfterQuery (h : QueryHook Template) (now : time_Time) (event : QueryEvent)
  : Result (list FieldLogger.Call) :=
  if negb (enabled h) then Ok []
  else if negb (verbose h) && quiet_outcome (ev_Err event) then Ok []
  else
    let dur := Time_Sub now (ev_StartTime event) in
    o <- deref (opts h) ;;
    let '(isError, level) := classify o dur (ev_Err event) in
    if N.eqb level 0 then Ok []
    else
      let args := entry_vars now event in
      msg <- (if isError then execute (errorTemplate h) args
              else execute (messageTemplate h) args) ;;
      dispatch o level msg.
End Hook.

Arguments Option {_}.

(** ** The fragment of text/template the default templates live in

    Text, and actions that print one field of the data: [{{.Name}}],
    blanks allowed around the field. An action that is not closed or is
    not of that shape is reported as a parse error (the rest of the
    template language is not modelled). A field that [LogEntryVars] does
    not have parses and fails at execution, as in Go. *)
Module GoTemplate.

Inductive Node : Type :=
  | TextNode (text : string)
  | FieldNode (name : string).

Definition is_blank (c : ascii) : bool :=
  Ascii.eqb c " "%char || Ascii.eqb c "009"%char
  || Ascii.eqb c "010"%char || Ascii.eqb c "013"%char.

Definition is_ident_byte (c : ascii) : bool :=
  let n := nat_of_ascii c in
  ((65 <=? n) && (n <=? 90) || (97 <=? n) && (n <=? 122)
   || (48 <=? n) && (n <=? 57) || (n =? 95))%nat.

Fixpoint trim_left (s : string) : string :=
  match s with
  | String c rest => if is_blank c then trim_left rest else s
  | EmptyString => s
  end.

Fixpoint trim_right (s : string) : string :=
  match s with
  | EmptyString => EmptyString
  | String c rest =>
      match trim_right rest with
      | EmptyString => if is_blank c then EmptyString else String c EmptyString
      | rest' => String c rest'
      end
  end.

Fixpoint all_ident (s : string) : bool :=
  match s with
  | EmptyString => true
  | String c rest => is_ident_byte c && all_ident rest
  end.

Definition parse_action (body : string) : string + Node :=
  match trim_left (trim_right body) with
  | String "." (String c rest as name) =>
      if all_ident name then inr (FieldNode name)
      else inl ("bad field in action: " +:+ body)
  | _ => inl ("unsupported action: " +:+ body)
  end.

(** One pass over the text; [acc] is the text node or the action body
    being read. *)
Fixpoint scan (inAction : bool) (acc : string) (s : string) : string + list Node :=
  let push c := acc +:+ String c EmptyString in
  match s with
  | EmptyString =>
      if inAction then inl "unclosed action" else inr [TextNode acc]
  | String c rest =>
      match rest with
      | String c' rest' =>
          if negb inAction && Ascii.eqb c "{"%char && Ascii.eqb c' "{"%char then
            match scan true EmptyString rest' with
            | inr nodes => inr (TextNode acc :: nodes)
            | inl err => inl err
            end
          else if inAction && Ascii.eqb c "}"%char && Ascii.eqb c' "}"%char then
            match parse_action acc with
            | inr node =>
                match scan false EmptyString rest' with
                | inr nodes => inr (node :: nodes)
                | inl err => inl err
                end
            | inl err => inl err
            end
          else scan inAction (push c) rest
      | EmptyString => scan inAction (push c) rest
      end
  end.

Definition Parse (name text : string) : list Node + string :=
  match scan false EmptyString text with
  | inr nodes => inl nodes
  | inl err => inr ("template: " +:+ name +:+ ": " +:+ err)
  end.

Section Execute.
(** The text of a [time.Time] is left to the caller. *)
Variable Time_String : time_Time -> string.

Definition eval_field (name : string) (args : LogEntryVars) : string + string :=
  if String.eqb name "Timestamp" then inl (Time_String (Timestamp args))
  else if String.eqb name "Query" then inl (Query args)
  else if String.eqb name "Operation" then inl (Operation args)
  else if String.eqb name "Duration" then inl (Duration_String (Duration args))
  else if String.eqb name "Error" then
    inl (match Error args with
         | Some e => error_Error e
         | None => "<nil>"
         end)
  else inr ("can't evaluate field " +:+ name +:+ " in type *logrusbun.LogEntryVars").

Fixpoint Execute (t : list Node) (args : LogEntryVars) : string + string :=
  match t with
  | [] => inl EmptyString
  | TextNode text :: rest =>
      match Execute rest args with
      | inl out => inl (text +:+ out)
      | inr err => inr err
      end
  | FieldNode name :: rest =>
      match eval_field name args with
      | inl v =>
          match Execute rest args with
          | inl out => inl (v +:+ out)
          | inr err => inr err
          end
      | inr err => inr err
      end
  end.
End Execute.

Definition engine (Time_String : time_Time -> string) : TemplateEngine :=
  {| Template := list Node;
     template_Parse := Parse;
     template_Execute := Execute Time_String |}.

End GoTemplate.

(** ** Data for the worked scenarios

    The engine the scenarios run on: the fragment above. No template
    used below prints [.Timestamp], so the text of a [time.Time] is left
    empty. *)
Definition scenario_engine : TemplateEngine := GoTemplate.engine (fun _ => EmptyString).

(** [QueryHookOptions{LogSlow: time.Second, Logger: log, QueryLevel:
    DebugLevel, SlowLevel: WarnLevel, ErrorLevel: ErrorLevel}]. *)
Definition scenario_options (log : FieldLogger.t) : QueryHookOptions :=
  mkQueryHookOptions Second (Some log) logrus.DebugLevel logrus.WarnLevel
    logrus.ErrorLevel EmptyString EmptyString.

(** [QueryHookOptions{Logger: log}], as in the README and the tests:
    every other field at its zero value. *)
Definition logger_only_options (log : FieldLogger.t) : QueryHookOptions :=
  mkQueryHookOptions 0 (Some log) 0%N 0%N 0%N EmptyString EmptyString.

(** A query without a structured kind that started at [start]. *)
Definition scenario_event (start : time_Time) (err : option error) : QueryEvent :=
  mkQueryEvent OtherAppender "SELECT * FROM users" start err.

(** The hook [NewQueryHook(WithEnabled(on), WithVerbose(verb),
    WithQueryHookOptions(o))] returns on [scenario_engine]; a panic of the
    constructor leaves no hook, and [new_QueryHook] stands for that. *)
Definition scenario_hook (on verb : bool) (o : QueryHookOptions)
  : QueryHook (@Template scenario_engine) :=
  match @NewQueryHook scenario_engine
          [WithEnabled on; WithVerbose verb; WithQueryHookOptions o] with
  | Ok h => h
  | Panicked _ => new_QueryHook
  end.

(** ** The operation name, in the words of the specification *)

(** The text up to, not including, the first space, if any. *)
Fixpoint before_first_space (s : string) : string :=
  match s with
  | EmptyString => EmptyString
  | String c rest =>
      if Ascii.eqb c " "%char then EmptyString
      else String c (before_first_space rest)
  end.

(** At most the first [n] characters. *)
Fixpoint truncate (n : nat) (s : string) : string :=
  match n, s with
  | S n', String c rest => String c (truncate n' rest)
  | _, _ => EmptyString
  end.

Definition spec_operation (query : string) : string :=
  truncate 16 (before_first_space query).

(** ** Vocabulary of the statements *)

Section Vocabulary.
Context `{TemplateEngine}.

(** An option that always returns and leaves [opts] as it found it. *)
Definition keeps_opts (opt : Option) : Prop :=
  forall h : QueryHook Template, exists h', opt h = Ok h' /\ opts h' = opts h.

(** The template [WithQueryHookOptions] fails on, if any: the error
    template is parsed first. *)
Definition parse_failure (o : QueryHookOptions) (err : string) : Prop :=
  template_Parse "ErrorTemplate" (ErrorTemplate (fill_defaults o)) = inr err
  \/ (exists et, template_Parse "ErrorTemplate" (ErrorTemplate (fill_defaults o)) = inl et
                 /\ template_Parse "MessageTemplate" (MessageTemplate (fill_defaults o))
                    = inr err).

(** The template [AfterQuery] picks for an event. *)
Definition chosen_template (h : QueryHook Template) (isError : bool) : option Template :=
  if isError then errorTemplate h else messageTemplate h.

End Vocabulary.

(** ** The first revision of the hook

    [NewQueryHook(opts QueryHookOptions)] and [AfterQuery] as the package
    had them before the functional options: the options are held by
    value, and there is neither an enabled nor a verbose flag. *)
Module V1.
Section Hook.
Context `{TemplateEngine}.

Record QueryHook : Type := mkQueryHook {
  opts : QueryHookOptions;
  errorTemplate : option Template;
  messageTemplate : option Template
}.

Definition NewQueryHook (o : QueryHookOptions) : Result QueryHook :=
  let o :=
    if String.eqb (ErrorTemplate o) "" then
      mkQueryHookOptions (LogSlow o) (Logger o) (QueryLevel o) (SlowLevel o)
        (ErrorLevel o) (MessageTemplate o)
        "{{.Operation}}[{{.Duration}}]: {{.Query}}: {{.Error}}"
    else o in
  let o :=
    if String.eqb (MessageTemplate o) "" then
      mkQueryHookOptions (LogSlow o) (Logger o) (QueryLevel o) (SlowLevel o)
        (ErrorLevel o) "{{.Operation}}[{{.Duration}}]: {{.Query}}" (ErrorTemplate o)
    else o in
  match template_Parse "ErrorTemplate" (ErrorTemplate o) with
  | inr err => Panicked (PanicError err)
  | inl errorTemplate' =>
      match template_Parse "MessageTemplate" (MessageTemplate o) with
      | inr err => Panicked (PanicError err)
      | inl messageTemplate' =>
          Ok (mkQueryHook o (Some errorTemplate') (Some messageTemplate'))
      end
  end.

Definition AfterQuery (h : QueryHook) (now : time_Time) (event : QueryEvent)
  : Result (list FieldLogger.Call) :=
  let dur := Time_Sub now (ev_StartTime event) in
  let '(isError, level) :=
    match ev_Err event with
    | None | Some ErrNoRows =>
        if (0 <? LogSlow (opts h)) && (LogSlow (opts h) <=? dur)
        then (false, SlowLevel (opts h))
        else (false, QueryLevel (opts h))
    | _ => (true, ErrorLevel (opts h))
    end in
  if N.eqb level 0 then Ok []
  else
    let args := mkLogEntryVars now (ev_Query event) (eventOperation event)
                  dur (ev_Err event) in
    msg <- (if isError then execute (errorTemplate h) args
            else execute (messageTemplate h) args) ;;
    dispatch (opts h) level msg.
End Hook.
End V1.

(** ** More vocabulary *)

(** The level each method of the logger stands for. *)
Definition level_of_method (m : FieldLogger.Method) : Level :=
  match m with
  | FieldLogger.Debug => logrus.DebugLevel
  | FieldLogger.Info => logrus.InfoLevel
  | FieldLogger.Warn => logrus.WarnLevel
  | FieldLogger.Error => logrus.ErrorLevel
  | FieldLogger.Fatal => logrus.FatalLevel
  | FieldLogger.Panic => logrus.PanicLevel
  end.

(** [p] is the beginning of [s]. *)
Fixpoint is_prefix (p s : string) : Prop :=
  match p, s with
  | EmptyString, _ => True
  | String a p', String b s' => a = b /\ is_prefix p' s'
  | String _ _, EmptyString => False
  end.

(** [s] has a space in it. *)
Fixpoint has_space (s : string) : Prop :=
  match s with
  | EmptyString => False
  | String c rest => c = " "%char \/ has_space rest
  end.

(** The value of the first of [keys] that is set in [env], if any. *)
Fixpoint first_set (env : gmap string string) (keys : list string) : option string :=
  match keys with
  | [] => None
  | key :: keys' =>
      match env !! key with
      | Some v => Some v
      | None => first_set env keys'
      end
  end.

Section PackageOptions.
Context `{TemplateEngine}.

(** The options the package exports. *)
Inductive package_option : Option -> Prop :=
  | po_WithEnabled (on : bool) : package_option (WithEnabled on)
  | po_WithVerbose (on : bool) : package_option (WithVerbose on)
  | po_FromEnv (env : gmap string string) (keys : list string) :
      package_option (FromEnv env keys)
  | po_WithQueryHookOptions (o : QueryHookOptions) :
      package_option (WithQueryHookOptions o).

(** The options among them that leave [enabled] alone. *)
Inductive quiet_option : Option -> Prop :=
  | qo_WithVerbose (on : bool) : quiet_option (WithVerbose on)
  | qo_WithQueryHookOptions (o : QueryHookOptions) :
      quiet_option (WithQueryHookOptions o).

(** The options that touch the flags only. *)
Inductive flag_option : Option -> Prop :=
  | fo_WithEnabled (on : bool) : flag_option (WithEnabled on)
  | fo_WithVerbose (on : bool) : flag_option (WithVerbose on)
  | fo_FromEnv (env : gmap string string) (keys : list string) :
      flag_option (FromEnv env keys).

(** The settings and the parsed templates of a hook belong together:
    none of them is there, or the settings carry two non-empty template
    texts and the templates are what these parse to. *)
Definition settings_consistent (h : QueryHook Template) : Prop :=
  match opts h with
  | None => errorTemplate h = None /\ messageTemplate h = None
  | Some o =>
      ErrorTemplate o <> "" /\ MessageTemplate o <> ""
      /\ (exists et, template_Parse "ErrorTemplate" (ErrorTemplate o) = inl et
                     /\ errorTemplate h = Some et)
      /\ (exists mt, template_Parse "MessageTemplate" (MessageTemplate o) = inl mt
                     /\ messageTemplate h = Some mt)
  end.
End PackageOptions.

(** * Properties *)

Section HookFacts.
Context `{TemplateEngine}.

Lemma AfterQuery_gated (h : QueryHook Template) (now : time_Time) (event : QueryEvent) :
  enabled h = false \/ (verbose h = false /\ quiet_outcome (ev_Err event) = true) ->
  AfterQuery h now event = Ok [].
Proof.
  unfold AfterQuery. intros [Hoff | [Hquiet Herr]].
  - rewrite Hoff. reflexivity.
  - rewrite Hquiet, Herr. destruct (enabled h); reflexivity.
Qed.

(** Past the gates the body of [AfterQuery] is reached. *)
Lemma AfterQuery_past_gates (h : QueryHook Template) (now : time_Time) (event : QueryEvent) :
  enabled h = true ->
  verbose h = true \/ quiet_outcome (ev_Err event) = false ->
  AfterQuery h now event =
    (let dur := Time_Sub now (ev_StartTime event) in
     o <- deref (opts h) ;;
     let '(isError, level) := classify o dur (ev_Err event) in
     if N.eqb level 0 then Ok []
     else
       msg <- (if isError then execute (errorTemplate h) (entry_vars now event)
               else execute (messageTemplate h) (entry_vars now event)) ;;
       dispatch o level msg).
Proof.
  unfold AfterQuery. intros Hon Hgate. rewrite Hon. cbn [negb].
  destruct Hgate as [Hv | Hq].
  - rewrite Hv. reflexivity.
  - rewrite Hq, andb_false_r. reflexivity.
Qed.

Lemma AfterQuery_level_zero (h : QueryHook Template) (now : time_Time) (event : QueryEvent)
  (o : QueryHookOptions) :
  opts h = Some o ->
  snd (classify o (Time_Sub now (ev_StartTime event)) (ev_Err event)) = 0%N ->
  AfterQuery h now event = Ok [].
Proof.
  intros Ho Hlevel. unfold AfterQuery.
  destruct (negb (enabled h)); [reflexivity|].
  destruct (negb (verbose h) && quiet_outcome (ev_Err event)); [reflexivity|].
  rewrite Ho. cbn [deref bind].
  destruct (classify o _ _) as [isError level]. cbn [snd] in Hlevel.
  rewrite Hlevel. reflexivity.
Qed.
End HookFacts.

(** The constructor does return for the scenario options. *)
Lemma scenario_hook_built (on verb : bool) (log : FieldLogger.t) :
  @NewQueryHook scenario_engine
    [WithEnabled on; WithVerbose verb; WithQueryHookOptions (scenario_options log)]
  = Ok (scenario_hook on verb (scenario_options log)).
Proof. destruct on, verb; vm_compute; reflexivity. Qed.

Section Gates.
Context `{TemplateEngine}.

(** C1. An enabled, non-verbose hook logs nothing for an event whose
    outcome is nil, [sql.ErrNoRows] or [sql.ErrTxDone]: [AfterQuery]
    returns with no call on the logger, whatever the time, hence the
    duration, and whatever the slow threshold. *)
Theorem AfterQuery_non_verbose_success_silent
  (h : QueryHook Template) (now : time_Time) (event : QueryEvent) :
  enabled h = true ->
  verbose h = false ->
  ev_Err event = None \/ ev_Err event = Some ErrNoRows
    \/ ev_Err event = Some ErrTxDone ->
  AfterQuery h now event = Ok [].
Proof.
  intros _ Hquiet Herr. apply AfterQuery_gated. right. split; [exact Hquiet|].
  destruct Herr as [-> | [-> | ->]]; reflexivity.
Qed.

(** C3. A hook that is not enabled makes no call on the logger and
    does not panic, for every event and every configuration. *)
Theorem AfterQuery_disabled_silent
  (h : QueryHook Template) (now : time_Time) (event : QueryEvent) :
  enabled h = false ->
  AfterQuery h now event = Ok [].
Proof. intros Hoff. apply AfterQuery_gated. left. exact Hoff. Qed.

(** C5. Past the enabled and verbose gates, an event whose resolved
    level is zero makes [AfterQuery] return with no call on the logger
    and no panic. *)
Theorem AfterQuery_zero_level_silent
  (h : QueryHook Template) (now : time_Time) (event : QueryEvent) (o : QueryHookOptions) :
  enabled h = true ->
  verbose h = true \/ quiet_outcome (ev_Err event) = false ->
  opts h = Some o ->
  snd (classify o (Time_Sub now (ev_StartTime event)) (ev_Err event)) = 0%N ->
  AfterQuery h now event = Ok [].
Proof. intros _ _ Ho Hlevel. exact (AfterQuery_level_zero h now event o Ho Hlevel). Qed.
End Gates.

(** The slow query of the scenario, two seconds long, on the non-verbose
    hook. *)
Lemma AfterQuery_non_verbose_success_silent_witness :
  LogSlow (scenario_options 0%nat) = Second /\
  Time_Sub (2 * Second) 0 = 2 * Second /\
  AfterQuery (scenario_hook true false (scenario_options 0%nat)) (2 * Second)
    (scenario_event 0 None) = Ok [].
Proof.
  split; [reflexivity|]. split; [reflexivity|].
  apply (@AfterQuery_non_verbose_success_silent scenario_engine).
  - reflexivity.
  - reflexivity.
  - left. reflexivity.
Defined.

Lemma AfterQuery_disabled_silent_witness :
  AfterQuery (scenario_hook false true (scenario_options 0%nat)) (2 * Second)
    (scenario_event 0 (Some (OtherError "boom"))) = Ok [].
Proof. apply (@AfterQuery_disabled_silent scenario_engine). reflexivity. Defined.

(** [QueryHookOptions{Logger: log}] leaves the three levels at zero. *)
Lemma AfterQuery_zero_level_silent_witness :
  AfterQuery
    (scenario_hook true true (logger_only_options 0%nat))
    (2 * Second) (scenario_event 0 (Some (OtherError "boom"))) = Ok [].
Proof.
  apply (@AfterQuery_zero_level_silent scenario_engine) with
    (o := fill_defaults (logger_only_options 0%nat)).
  - reflexivity.
  - left. reflexivity.
  - reflexivity.
  - reflexivity.
Defined.

(** ** Classification *)

(** C2. The second switch of [AfterQuery]: a nil outcome or
    [sql.ErrNoRows] is not an error and resolves to the slow level when
    [LogSlow > 0] and the duration is at least [LogSlow], to the query
    level otherwise; every other outcome, [sql.ErrTxDone] included, is an
    error and resolves to the error level. *)
Theorem classify_resolves_level
  (o : QueryHookOptions) (dur : time_Duration) (err : option error) :
  (err = None \/ err = Some ErrNoRows ->
     fst (classify o dur err) = false /\
     (0 < LogSlow o /\ LogSlow o <= dur -> snd (classify o dur err) = SlowLevel o) /\
     (~ (0 < LogSlow o /\ LogSlow o <= dur) -> snd (classify o dur err) = QueryLevel o))
  /\ (err <> None -> err <> Some ErrNoRows ->
      classify o dur err = (true, ErrorLevel o))
  /\ classify o dur (Some ErrTxDone) = (true, ErrorLevel o).
Proof.
  split; [|split].
  - intros Hsucc.
    assert (Hc : classify o dur err =
                 if (0 <? LogSlow o) && (LogSlow o <=? dur)
                 then (false, SlowLevel o) else (false, QueryLevel o)).
    { destruct Hsucc as [-> | ->]; reflexivity. }
    rewrite Hc. clear Hc Hsucc.
    destruct (Z.ltb_spec 0 (LogSlow o)) as [Hpos | Hpos];
      destruct (Z.leb_spec (LogSlow o) dur) as [Hle | Hle]; cbn [andb fst snd];
      (split; [reflexivity|]); split; intros Hc; try reflexivity;
      exfalso; lia.
  - intros Hnil Hrows. destruct err as [[| |msg]|]; try reflexivity; congruence.
  - reflexivity.
Qed.

Lemma classify_resolves_level_witness :
  classify (scenario_options 0%nat) (2 * Second) None = (false, logrus.WarnLevel)
  /\ classify (scenario_options 0%nat) (Second / 2) (Some ErrNoRows)
     = (false, logrus.DebugLevel)
  /\ classify (scenario_options 0%nat) (2 * Second) (Some (OtherError "boom"))
     = (true, logrus.ErrorLevel).
Proof.
  split; [|split].
  - destruct (classify_resolves_level (scenario_options 0%nat) (2 * Second) None)
      as [Hsucc _].
    destruct (Hsucc (or_introl eq_refl)) as (Hfst & Hslow & _).
    rewrite (surjective_pairing (classify _ _ _)), Hfst, Hslow; [reflexivity|].
    vm_compute. split; [reflexivity | discriminate].
  - destruct (classify_resolves_level (scenario_options 0%nat) (Second / 2)
                (Some ErrNoRows)) as [Hsucc _].
    destruct (Hsucc (or_intror eq_refl)) as (Hfst & _ & Hquick).
    rewrite (surjective_pairing (classify _ _ _)), Hfst, Hquick; [reflexivity|].
    vm_compute. intros [_ Hle]. apply Hle. reflexivity.
  - destruct (classify_resolves_level (scenario_options 0%nat) (2 * Second)
                (Some (OtherError "boom"))) as (_ & Herr & _).
    apply Herr; discriminate.
Defined.

Section Dispatch.
Context `{TemplateEngine}.

Lemma dispatch_never_Panic (o : QueryHookOptions) (level : Level) (msg : string)
  (calls : list FieldLogger.Call) :
  N.eqb level 0 = false ->
  dispatch o level msg = Ok calls ->
  forall c, In c calls -> FieldLogger.method c <> FieldLogger.Panic.
Proof.
  intros Hnz. unfold dispatch.
  repeat match goal with
         | |- context [N.eqb level ?l] => destruct (N.eqb_spec level l) as [-> | ?]
         end;
    try discriminate Hnz;
    try (destruct (Logger o); cbn [deref bind]; intros [= <-] c [<- | []];
         discriminate).
Qed.

(** C10. [logrus.PanicLevel] is the zero level, so an event that
    resolves to it returns at the [level == 0] test with nothing logged,
    and no run of [AfterQuery] ever calls the logger's [Panic]. *)
Theorem PanicLevel_never_dispatched :
  logrus.PanicLevel = 0%N
  /\ (forall (h : QueryHook Template) now event o,
        opts h = Some o ->
        snd (classify o (Time_Sub now (ev_StartTime event)) (ev_Err event))
          = logrus.PanicLevel ->
        AfterQuery h now event = Ok [])
  /\ (forall (h : QueryHook Template) now event calls,
        AfterQuery h now event = Ok calls ->
        forall c, In c calls -> FieldLogger.method c <> FieldLogger.Panic).
Proof.
  split; [reflexivity|]. split.
  - intros h now event o Ho Hlevel. exact (AfterQuery_level_zero h now event o Ho Hlevel).
  - intros h now event calls. unfold AfterQuery.
    destruct (negb (enabled h)); [intros [= <-] c []|].
    destruct (negb (verbose h) && quiet_outcome (ev_Err event)); [intros [= <-] c []|].
    destruct (opts h) as [o|]; cbn [deref bind]; [|discriminate].
    destruct (classify o _ _) as [isError level].
    destruct (N.eqb level 0) eqn:Hnz; [intros [= <-] c []|].
    match goal with
    | |- context [bind ?r _] => destruct r as [msg|p]
    end; cbn [bind]; [|discriminate].
    apply dispatch_never_Panic. exact Hnz.
Qed.
End Dispatch.

(** A hook whose three levels are [PanicLevel], on a failed query. *)
Lemma PanicLevel_never_dispatched_witness :
  AfterQuery (scenario_hook true true (logger_only_options 0%nat)) (2 * Second)
    (scenario_event 0 (Some (OtherError "boom"))) = Ok []
  /\ forall c,
       In c [FieldLogger.mkCall 0%nat FieldLogger.Warn "SELECT[2s]: SELECT * FROM users"] ->
       FieldLogger.method c <> FieldLogger.Panic.
Proof.
  destruct (@PanicLevel_never_dispatched scenario_engine) as (_ & Hzero & Hnever).
  split.
  - apply Hzero with (o := fill_defaults (logger_only_options 0%nat)); reflexivity.
  - apply Hnever with (h := scenario_hook true true (scenario_options 0%nat))
                      (now := 2 * Second) (event := scenario_event 0 None).
    vm_compute. reflexivity.
Defined.

(** ** Options *)

Section Options.
Context `{TemplateEngine}.

Lemma apply_options_app (a b : list Option) (h : QueryHook Template) :
  apply_options (a ++ b) h = (h' <- apply_options a h ;; apply_options b h').
Proof.
  revert h. induction a as [|opt a IH]; intros h; cbn [apply_options app bind].
  - reflexivity.
  - destruct (opt h) as [h1|p]; cbn [bind]; [apply IH | reflexivity].
Qed.

Lemma FromEnv_loop_keeps_opts (env : gmap string string) (keys : list string)
  (h : QueryHook Template) :
  opts (FromEnv_loop env keys h) = opts h
  /\ errorTemplate (FromEnv_loop env keys h) = errorTemplate h
  /\ messageTemplate (FromEnv_loop env keys h) = messageTemplate h.
Proof.
  induction keys as [|key keys IH]; cbn [FromEnv_loop]; [auto|].
  destruct (env !! key); [cbn; auto | exact IH].
Qed.

Lemma WithQueryHookOptions_keeps_flags (o : QueryHookOptions) (h h' : QueryHook Template) :
  WithQueryHookOptions o h = Ok h' ->
  enabled h' = enabled h /\ verbose h' = verbose h.
Proof.
  unfold WithQueryHookOptions.
  destruct (template_Parse "ErrorTemplate" _); [|discriminate].
  destruct (template_Parse "MessageTemplate" _); [|discriminate].
  intros [= <-]. split; reflexivity.
Qed.

(** C4. [FromEnv] on one variable: not set, the hook is returned as it
    was; set to the empty text or to "0", the hook is disabled; set to
    "2", it is enabled and verbose; set to anything else, it is enabled
    and not verbose. Without a name the variable is BUNDEBUG. *)
Theorem FromEnv_sets_flags (env : gmap string string) (key : string)
  (h : QueryHook Template) :
  FromEnv env [] h = FromEnv env ["BUNDEBUG"] h
  /\ exists h', FromEnv env [key] h = Ok h'
     /\ (env !! key = None -> h' = h)
     /\ (forall v, env !! key = Some v -> v = "" \/ v = "0" -> enabled h' = false)
     /\ (env !! key = Some "2" -> enabled h' = true /\ verbose h' = true)
     /\ (forall v, env !! key = Some v -> v <> "" -> v <> "0" -> v <> "2" ->
           enabled h' = true /\ verbose h' = false).
Proof.
  split; [reflexivity|].
  exists (FromEnv_loop env [key] h). split; [reflexivity|].
  cbn [FromEnv_loop]. destruct (env !! key) as [v|] eqn:Hv.
  - split; [discriminate|]. split; [|split].
    + intros v' [= <-] [-> | ->]; reflexivity.
    + intros [= ->]. split; reflexivity.
    + intros v' [= <-] Hempty Hzero Htwo. cbn.
      destruct (String.eqb_spec v ""); [contradiction|].
      destruct (String.eqb_spec v "0"); [contradiction|].
      destruct (String.eqb_spec v "2"); [contradiction|].
      split; reflexivity.
  - split; [reflexivity|]. split; [|split]; discriminate.
Qed.

(** C8. Options run in the order given, each on the hook the previous
    one left; [WithEnabled], [WithVerbose] and [FromEnv] leave the
    options and templates as they were, [WithQueryHookOptions] leaves
    [enabled] and [verbose] as they were. So [FromEnv("BUNDEBUG")] with
    BUNDEBUG=2 followed by [WithQueryHookOptions] builds an enabled and
    verbose hook. *)
Theorem options_apply_in_order_keeping_other_fields :
  (forall (a b : list Option) (h : QueryHook Template),
      apply_options (a ++ b) h = (h' <- apply_options a h ;; apply_options b h'))
  /\ (forall on (h : QueryHook Template),
        WithEnabled on h =
        Ok (mkQueryHook on (verbose h) (opts h) (errorTemplate h) (messageTemplate h)))
  /\ (forall on (h : QueryHook Template),
        WithVerbose on h =
        Ok (mkQueryHook (enabled h) on (opts h) (errorTemplate h) (messageTemplate h)))
  /\ (forall env keys (h : QueryHook Template),
        exists h', FromEnv env keys h = Ok h' /\ opts h' = opts h
                   /\ errorTemplate h' = errorTemplate h
                   /\ messageTemplate h' = messageTemplate h)
  /\ (forall o (h h' : QueryHook Template),
        WithQueryHookOptions o h = Ok h' ->
        enabled h' = enabled h /\ verbose h' = verbose h)
  /\ (forall (env : gmap string string) o et mt,
        env !! "BUNDEBUG" = Some "2" ->
        template_Parse "ErrorTemplate" (ErrorTemplate (fill_defaults o)) = inl et ->
        template_Parse "MessageTemplate" (MessageTemplate (fill_defaults o)) = inl mt ->
        NewQueryHook [FromEnv env ["BUNDEBUG"]; WithQueryHookOptions o] =
        Ok (mkQueryHook true true (Some (fill_defaults o)) (Some et) (Some mt))).
Proof.
  split; [exact apply_options_app|].
  split; [reflexivity|]. split; [reflexivity|]. split; [|split].
  - intros env keys h. unfold FromEnv. eexists. split; [reflexivity|].
    apply FromEnv_loop_keeps_opts.
  - exact WithQueryHookOptions_keeps_flags.
  - intros env o et mt Henv Het Hmt.
    unfold NewQueryHook, FromEnv, WithQueryHookOptions.
    cbn [apply_options bind FromEnv_loop]. rewrite Henv, Het, Hmt. reflexivity.
Qed.
End Options.

Lemma FromEnv_sets_flags_witness :
  (enabled (scenario_hook true true (scenario_options 0%nat)) = true
   /\ verbose (scenario_hook true true (scenario_options 0%nat)) = true)
  /\ exists h',
       @FromEnv scenario_engine {["BUNDEBUG" := "1"]} ["BUNDEBUG"]
         (scenario_hook true true (scenario_options 0%nat)) = Ok h'
       /\ enabled h' = true /\ verbose h' = false.
Proof.
  split; [split; reflexivity|].
  destruct (@FromEnv_sets_flags scenario_engine {["BUNDEBUG" := "1"]} "BUNDEBUG"
              (scenario_hook true true (scenario_options 0%nat)))
    as (_ & h' & Hrun & _ & _ & _ & Hother).
  exists h'. split; [exact Hrun|].
  apply (Hother "1"); [reflexivity | discriminate | discriminate | discriminate].
Defined.

Lemma options_apply_in_order_keeping_other_fields_witness :
  exists et mt,
    @NewQueryHook scenario_engine
      [FromEnv {["BUNDEBUG" := "2"]} ["BUNDEBUG"];
       WithQueryHookOptions (logger_only_options 0%nat)]
    = Ok (mkQueryHook true true (Some (fill_defaults (logger_only_options 0%nat)))
            (Some et) (Some mt)).
Proof.
  destruct (@options_apply_in_order_keeping_other_fields scenario_engine)
    as (_ & _ & _ & _ & _ & Hscenario).
  eexists. eexists.
  apply (Hscenario {["BUNDEBUG" := "2"]} (logger_only_options 0%nat)).
  - reflexivity.
  - vm_compute. reflexivity.
  - vm_compute. reflexivity.
Defined.

(** ** Fatal paths *)

Section Fatal.
Context `{TemplateEngine}.

Lemma flag_options_keep_opts :
  (forall on, keeps_opts (WithEnabled on))
  /\ (forall on, keeps_opts (WithVerbose on))
  /\ (forall env keys, keeps_opts (FromEnv env keys)).
Proof.
  split; [|split].
  - intros on h. eexists. split; reflexivity.
  - intros on h. eexists. split; reflexivity.
  - intros env keys h. unfold FromEnv. eexists. split; [reflexivity|].
    apply FromEnv_loop_keeps_opts.
Qed.

Lemma apply_options_keep_opts (options : list Option) (h : QueryHook Template) :
  Forall keeps_opts options ->
  exists h', apply_options options h = Ok h' /\ opts h' = opts h.
Proof.
  intros Hall. revert h. induction Hall as [|opt rest Hopt _ IH]; intros h.
  - exists h. split; reflexivity.
  - destruct (Hopt h) as (h1 & Hrun & Hsame). cbn [apply_options]. rewrite Hrun.
    cbn [bind]. destruct (IH h1) as (h2 & Hrest & Hsame2).
    exists h2. split; [exact Hrest | congruence].
Qed.

Lemma NewQueryHook_without_settings (options : list Option) :
  Forall keeps_opts options ->
  NewQueryHook options = Panicked (PanicString "logrus settings not set.").
Proof.
  intros Hall. unfold NewQueryHook.
  destruct (apply_options_keep_opts options new_QueryHook Hall) as (h & -> & Hopts).
  cbn [bind]. rewrite Hopts. reflexivity.
Qed.

Lemma WithQueryHookOptions_parse_failure (o : QueryHookOptions) (err : string)
  (h : QueryHook Template) :
  parse_failure o err ->
  WithQueryHookOptions o h = Panicked (PanicError err).
Proof.
  unfold WithQueryHookOptions. intros [-> | (et & -> & ->)]; reflexivity.
Qed.

Lemma NewQueryHook_parse_failure (o : QueryHookOptions) (err : string)
  (before after : list Option) (h : QueryHook Template) :
  parse_failure o err ->
  apply_options before new_QueryHook = Ok h ->
  NewQueryHook (before ++ WithQueryHookOptions o :: after) = Panicked (PanicError err).
Proof.
  intros Hfail Hbefore. unfold NewQueryHook.
  rewrite apply_options_app, Hbefore. cbn [bind apply_options].
  rewrite (WithQueryHookOptions_parse_failure o err h Hfail). reflexivity.
Qed.

Lemma AfterQuery_body (h : QueryHook Template) (now : time_Time) (event : QueryEvent)
  (o : QueryHookOptions) (isError : bool) (level : Level) :
  enabled h = true ->
  verbose h = true \/ quiet_outcome (ev_Err event) = false ->
  opts h = Some o ->
  classify o (Time_Sub now (ev_StartTime event)) (ev_Err event) = (isError, level) ->
  level <> 0%N ->
  AfterQuery h now event =
    (msg <- execute (chosen_template h isError) (entry_vars now event) ;;
     dispatch o level msg).
Proof.
  intros Hon Hgate Ho Hclass Hnz.
  rewrite (AfterQuery_past_gates h now event Hon Hgate). cbv zeta.
  rewrite Ho. cbn [deref bind]. rewrite Hclass.
  destruct (N.eqb_spec level 0) as [Hz | _]; [contradiction|].
  unfold chosen_template. destruct isError; reflexivity.
Qed.

Lemma AfterQuery_render_failure (h : QueryHook Template) (now : time_Time)
  (event : QueryEvent) (o : QueryHookOptions) (isError : bool) (level : Level)
  (t : Template) (err : string) :
  enabled h = true ->
  verbose h = true \/ quiet_outcome (ev_Err event) = false ->
  opts h = Some o ->
  classify o (Time_Sub now (ev_StartTime event)) (ev_Err event) = (isError, level) ->
  level <> 0%N ->
  chosen_template h isError = Some t ->
  template_Execute t (entry_vars now event) = inr err ->
  AfterQuery h now event = Panicked (PanicError err).
Proof.
  intros Hon Hgate Ho Hclass Hnz Ht Hexec.
  rewrite (AfterQuery_body h now event o isError level Hon Hgate Ho Hclass Hnz).
  unfold execute. rewrite Ht. cbn [deref bind]. rewrite Hexec. reflexivity.
Qed.

Lemma dispatch_unsupported (o : QueryHookOptions) (level : Level) (msg : string) :
  (logrus.DebugLevel < level)%N ->
  dispatch o level msg = Panicked (PanicUnsupportedLevel level).
Proof.
  intros Hbig. unfold dispatch.
  repeat match goal with
         | |- context [N.eqb level ?l] => destruct (N.eqb_spec level l) as [Heq | _]
         end;
    try (rewrite Heq in Hbig; vm_compute in Hbig; discriminate Hbig).
  reflexivity.
Qed.

Lemma AfterQuery_unsupported_level (h : QueryHook Template) (now : time_Time)
  (event : QueryEvent) (o : QueryHookOptions) (isError : bool) (level : Level) :
  enabled h = true ->
  verbose h = true \/ quiet_outcome (ev_Err event) = false ->
  opts h = Some o ->
  classify o (Time_Sub now (ev_StartTime event)) (ev_Err event) = (isError, level) ->
  (logrus.DebugLevel < level)%N ->
  (exists p, AfterQuery h now event = Panicked p)
  /\ (forall t msg,
        chosen_template h isError = Some t ->
        template_Execute t (entry_vars now event) = inl msg ->
        AfterQuery h now event = Panicked (PanicUnsupportedLevel level)).
Proof.
  intros Hon Hgate Ho Hclass Hbig.
  assert (Hnz : level <> 0%N).
  { intros ->. vm_compute in Hbig. discriminate Hbig. }
  rewrite (AfterQuery_body h now event o isError level Hon Hgate Ho Hclass Hnz).
  split.
  - destruct (execute _ _) as [msg|p]; cbn [bind]; [|eauto].
    rewrite (dispatch_unsupported o level msg Hbig). eauto.
  - intros t msg Ht Hexec. unfold execute. rewrite Ht. cbn [deref bind].
    rewrite Hexec. apply dispatch_unsupported. exact Hbig.
Qed.
End Fatal.

Section FatalSummary.
Context `{TemplateEngine}.

(** C6. The four fatal conditions end in a panic, which nothing
    recovers: [NewQueryHook] panics when no option set the logrus
    settings; [WithQueryHookOptions], and with it the constructor it runs
    in, panics with the parse error of a template; [AfterQuery] panics
    with the error of a failed template execution, and panics when the
    resolved level is above [DebugLevel], the last level its switch
    handles. *)
Theorem fatal_conditions_panic :
  (forall options : list Option,
      Forall keeps_opts options ->
      NewQueryHook options = Panicked (PanicString "logrus settings not set."))
  /\ (forall o err (before after : list Option) (h : QueryHook Template),
        parse_failure o err ->
        WithQueryHookOptions o h = Panicked (PanicError err)
        /\ (apply_options before new_QueryHook = Ok h ->
            NewQueryHook (before ++ WithQueryHookOptions o :: after)
            = Panicked (PanicError err)))
  /\ (forall (h : QueryHook Template) now event o isError level t err,
        enabled h = true ->
        verbose h = true \/ quiet_outcome (ev_Err event) = false ->
        opts h = Some o ->
        classify o (Time_Sub now (ev_StartTime event)) (ev_Err event) = (isError, level) ->
        level <> 0%N ->
        chosen_template h isError = Some t ->
        template_Execute t (entry_vars now event) = inr err ->
        AfterQuery h now event = Panicked (PanicError err))
  /\ (forall (h : QueryHook Template) now event o isError level,
        enabled h = true ->
        verbose h = true \/ quiet_outcome (ev_Err event) = false ->
        opts h = Some o ->
        classify o (Time_Sub now (ev_StartTime event)) (ev_Err event) = (isError, level) ->
        (logrus.DebugLevel < level)%N ->
        (exists p, AfterQuery h now event = Panicked p)
        /\ (forall t msg,
              chosen_template h isError = Some t ->
              template_Execute t (entry_vars now event) = inl msg ->
              AfterQuery h now event = Panicked (PanicUnsupportedLevel level))).
Proof.
  split; [exact NewQueryHook_without_settings|]. split; [|split].
  - intros o err before after h Hfail. split.
    + exact (WithQueryHookOptions_parse_failure o err h Hfail).
    + exact (NewQueryHook_parse_failure o err before after h Hfail).
  - exact AfterQuery_render_failure.
  - exact AfterQuery_unsupported_level.
Qed.
End FatalSummary.

(** The four conditions on the scenario engine: a constructor given
    flags only; the error template of the first README, whose last
    action is not closed; a message template naming a field that
    [LogEntryVars] does not have; a query level of [TraceLevel]. *)
Lemma fatal_conditions_panic_witness :
  @NewQueryHook scenario_engine [WithEnabled true; FromEnv ∅ []]
    = Panicked (PanicString "logrus settings not set.")
  /\ @NewQueryHook scenario_engine
       ([WithEnabled true] ++
        WithQueryHookOptions
          (mkQueryHookOptions Second (Some 0%nat) logrus.DebugLevel logrus.WarnLevel
             logrus.ErrorLevel "{{.Operation}}[{{.Duration}}]: {{.Query}}"
             "{{.Operation}}[{{.Duration}}]: {{.Query}}: {{.Error}") :: [])
     = Panicked (PanicError "template: ErrorTemplate: unclosed action")
  /\ AfterQuery
       (scenario_hook true true
          (mkQueryHookOptions Second (Some 0%nat) logrus.DebugLevel logrus.WarnLevel
             logrus.ErrorLevel "{{.Rows}} rows" EmptyString))
       Second (scenario_event 0 None)
     = Panicked (PanicError
                   "can't evaluate field Rows in type *logrusbun.LogEntryVars")
  /\ AfterQuery
       (scenario_hook true true
          (mkQueryHookOptions Second (Some 0%nat) logrus.TraceLevel logrus.WarnLevel
             logrus.ErrorLevel EmptyString EmptyString))
       Second (scenario_event Second None)
     = Panicked (PanicUnsupportedLevel logrus.TraceLevel).
Proof.
  destruct (@fatal_conditions_panic scenario_engine)
    as (Hsettings & Hparse & Hrender & Hlevel).
  split; [|split; [|split]].
  - apply Hsettings. repeat constructor.
    + intros h. eexists. split; reflexivity.
    + intros h. eexists. split; reflexivity.
  - eapply Hparse.
    + left. vm_compute. reflexivity.
    + reflexivity.
  - eapply Hrender with (isError := false) (level := logrus.WarnLevel).
    + reflexivity.
    + left. reflexivity.
    + reflexivity.
    + reflexivity.
    + discriminate.
    + reflexivity.
    + vm_compute. reflexivity.
  - eapply Hlevel with (isError := false).
    + reflexivity.
    + left. reflexivity.
    + reflexivity.
    + reflexivity.
    + reflexivity.
    + reflexivity.
    + vm_compute. reflexivity.
Defined.

(** ** Operation names *)

Lemma slice_to_truncate (n : nat) (s : string) : slice_to n s = truncate n s.
Proof.
  unfold slice_to. revert s. induction n as [|n IH]; intros [|c s]; cbn; try reflexivity.
  f_equal. apply IH.
Qed.

Lemma truncate_short (n : nat) (s : string) :
  (String.length s <= n)%nat -> truncate n s = s.
Proof.
  revert s. induction n as [|n IH]; intros [|c s]; cbn; intros Hlen;
    try reflexivity; try lia.
  f_equal. apply IH. lia.
Qed.

Lemma Index_space_before (s : string) :
  match strings_Index_space s with
  | Some idx => slice_to idx s = before_first_space s
  | None => before_first_space s = s
  end.
Proof.
  induction s as [|c s IH]; cbn [strings_Index_space before_first_space].
  - reflexivity.
  - destruct (Ascii.eqb c " "); [reflexivity|].
    destruct (strings_Index_space s) as [idx|].
    + unfold slice_to in *. cbn. f_equal. exact IH.
    + f_equal. exact IH.
Qed.

(** The second step of [queryOperation] is the truncation to 16. *)
Lemma queryOperation_truncates (name : string) :
  queryOperation name =
  truncate 16 (match strings_Index_space name with
               | Some idx => if (0 <? idx)%nat then slice_to idx name else name
               | None => name
               end).
Proof.
  unfold queryOperation. cbv zeta.
  destruct (Nat.ltb_spec 16 (String.length
    (match strings_Index_space name with
     | Some idx => if (0 <? idx)%nat then slice_to idx name else name
     | None => name
     end))) as [Hlong | Hshort].
  - apply slice_to_truncate.
  - symmetry. apply truncate_short. exact Hshort.
Qed.

Lemma queryOperation_no_leading_space (name : string) :
  (forall rest, name <> String " " rest) ->
  queryOperation name = spec_operation name.
Proof.
  intros Hlead. rewrite queryOperation_truncates. unfold spec_operation. f_equal.
  pose proof (Index_space_before name) as Hidx.
  destruct (strings_Index_space name) as [[|idx]|] eqn:Hfound.
  - destruct name as [|c name]; [discriminate|]. cbn in Hfound.
    destruct (Ascii.eqb_spec c " ") as [-> | _]; [exfalso; exact (Hlead name eq_refl)|].
    destruct (strings_Index_space name); discriminate.
  - exact Hidx.
  - symmetry. exact Hidx.
Qed.

Lemma queryOperation_leading_space (rest : string) :
  queryOperation (String " " rest) = truncate 16 (String " " rest).
Proof. rewrite queryOperation_truncates. reflexivity. Qed.

(** C7, as the code has it. A recognised query kind gives its keyword.
    Otherwise the name is taken from the query text: when the text does
    not begin with a space, it is the text before the first space, cut
    to 16 bytes; when it begins with a space, nothing is cut at the
    space and the name is the first 16 bytes of the text. *)
Theorem eventOperation_by_kind_or_text (event : QueryEvent) :
  (ev_QueryAppender event = SelectQuery -> eventOperation event = "SELECT")
  /\ (ev_QueryAppender event = InsertQuery -> eventOperation event = "INSERT")
  /\ (ev_QueryAppender event = UpdateQuery -> eventOperation event = "UPDATE")
  /\ (ev_QueryAppender event = DeleteQuery -> eventOperation event = "DELETE")
  /\ (ev_QueryAppender event = CreateTableQuery -> eventOperation event = "CREATE TABLE")
  /\ (ev_QueryAppender event = DropTableQuery -> eventOperation event = "DROP TABLE")
  /\ (ev_QueryAppender event = OtherAppender ->
      (forall rest, ev_Query event <> String " " rest) ->
      eventOperation event = spec_operation (ev_Query event))
  /\ (ev_QueryAppender event = OtherAppender ->
      forall rest, ev_Query event = String " " rest ->
      eventOperation event = truncate 16 (ev_Query event)).
Proof.
  unfold eventOperation.
  repeat split; try (intros ->; reflexivity).
  - intros -> Hlead. apply queryOperation_no_leading_space. exact Hlead.
  - intros -> rest ->. apply queryOperation_leading_space.
Qed.

Lemma eventOperation_by_kind_or_text_witness :
  eventOperation (mkQueryEvent UpdateQuery "UPDATE t SET x=1" 0 None) = "UPDATE"
  /\ eventOperation
       (mkQueryEvent OtherAppender "SELECTSELECTSELECTSELECTSELECT columns" 0 None)
     = "SELECTSELECTSELE"
  /\ eventOperation (mkQueryEvent OtherAppender " SELECT 1" 0 None) = " SELECT 1".
Proof.
  split; [|split].
  - destruct (eventOperation_by_kind_or_text
                (mkQueryEvent UpdateQuery "UPDATE t SET x=1" 0 None))
      as (_ & _ & Hupdate & _).
    apply Hupdate. reflexivity.
  - destruct (eventOperation_by_kind_or_text
                (mkQueryEvent OtherAppender "SELECTSELECTSELECTSELECTSELECT columns" 0 None))
      as (_ & _ & _ & _ & _ & _ & Htext & _).
    rewrite Htext; [reflexivity | reflexivity | discriminate].
  - destruct (eventOperation_by_kind_or_text
                (mkQueryEvent OtherAppender " SELECT 1" 0 None))
      as (_ & _ & _ & _ & _ & _ & _ & Hlead).
    rewrite (Hlead eq_refl "SELECT 1" eq_refl). reflexivity.
Defined.

(** C7 as the specification words it fails on a text that begins with
    a space: cutting at the first space would leave the empty name, and
    [queryOperation] keeps the text. *)
Lemma eventOperation_leading_space_not_cut :
  spec_operation " SELECT 1" = ""
  /\ eventOperation (mkQueryEvent OtherAppender " SELECT 1" 0 None) = " SELECT 1"
  /\ eventOperation (mkQueryEvent OtherAppender " SELECT 1" 0 None)
     <> spec_operation (ev_Query (mkQueryEvent OtherAppender " SELECT 1" 0 None)).
Proof. split; [reflexivity|]. split; [reflexivity|]. discriminate. Qed.

(** ** The slow query of the scenario, rendered *)

Lemma Time_Sub_after (start : time_Time) (d : time_Duration) :
  minDuration <= d <= maxDuration -> Time_Sub (start + d) start = d.
Proof.
  intros [Hlo Hhi]. unfold Time_Sub. cbv zeta.
  replace (start + d - start) with d by (unfold time_Time, time_Duration in *; lia).
  destruct (Z.ltb_spec d minDuration); [lia|].
  destruct (Z.ltb_spec maxDuration d); [lia|]. reflexivity.
Qed.

Lemma default_templates_parse :
  GoTemplate.Parse "ErrorTemplate" defaultErrorTemplate =
    inl [GoTemplate.TextNode ""; GoTemplate.FieldNode "Operation";
         GoTemplate.TextNode "["; GoTemplate.FieldNode "Duration";
         GoTemplate.TextNode "]: "; GoTemplate.FieldNode "Query";
         GoTemplate.TextNode ": "; GoTemplate.FieldNode "Error";
         GoTemplate.TextNode ""]
  /\ GoTemplate.Parse "MessageTemplate" defaultMessageTemplate =
    inl [GoTemplate.TextNode ""; GoTemplate.FieldNode "Operation";
         GoTemplate.TextNode "["; GoTemplate.FieldNode "Duration";
         GoTemplate.TextNode "]: "; GoTemplate.FieldNode "Query";
         GoTemplate.TextNode ""].
Proof. split; vm_compute; reflexivity. Qed.

(** C9. On the template fragment, whatever the text of a [time.Time]:
    the hook built with [WithEnabled(true)], [WithVerbose(true)] and the
    scenario options, whose [MessageTemplate] is empty so that the
    default is used, answers a successful "SELECT * FROM users" that
    took two seconds with one [Warn] call carrying
    "SELECT[2s]: SELECT * FROM users". It does so whether the event
    carries a select query or no recognised kind. *)
Theorem AfterQuery_slow_select_logged_at_Warn
  (Time_String : time_Time -> string) (log : FieldLogger.t) (start : time_Time)
  (structured : bool) :
  exists h,
    @NewQueryHook (GoTemplate.engine Time_String)
      [WithEnabled true; WithVerbose true; WithQueryHookOptions (scenario_options log)]
    = Ok h
    /\ enabled h = true /\ verbose h = true
    /\ (MessageTemplate <$> opts h) = Some "{{.Operation}}[{{.Duration}}]: {{.Query}}"
    /\ (LogSlow <$> opts h) = Some Second
    /\ @AfterQuery (GoTemplate.engine Time_String) h (start + 2 * Second)
         (mkQueryEvent (if structured then SelectQuery else OtherAppender)
            "SELECT * FROM users" start None)
       = Ok [FieldLogger.mkCall log FieldLogger.Warn "SELECT[2s]: SELECT * FROM users"].
Proof.
  destruct default_templates_parse as [Herr Hmsg].
  eexists. split.
  - unfold NewQueryHook, WithQueryHookOptions, WithVerbose, WithEnabled.
    cbn [apply_options bind template_Parse GoTemplate.engine].
    change (ErrorTemplate (fill_defaults (scenario_options log)))
      with defaultErrorTemplate.
    change (MessageTemplate (fill_defaults (scenario_options log)))
      with defaultMessageTemplate.
    rewrite Herr, Hmsg. reflexivity.
  - split; [reflexivity|]. split; [reflexivity|]. split; [reflexivity|].
    split; [reflexivity|].
    unfold AfterQuery, entry_vars. cbn [enabled verbose negb andb opts deref bind ev_StartTime].
    rewrite Time_Sub_after by (vm_compute; split; discriminate).
    destruct structured; reflexivity.
Qed.

(** * Further properties of the code *)

(** ** [queryOperation] and [eventOperation] *)

Lemma is_prefix_refl (s : string) : is_prefix s s.
Proof. induction s as [|c s IH]; cbn; auto. Qed.

Lemma is_prefix_trans (a b c : string) :
  is_prefix a b -> is_prefix b c -> is_prefix a c.
Proof.
  revert b c. induction a as [|x a IH]; intros [|y b] [|z c]; cbn; try tauto.
  intros [-> Hab] [-> Hbc]. split; [reflexivity | exact (IH b c Hab Hbc)].
Qed.

Lemma truncate_is_prefix (n : nat) (s : string) : is_prefix (truncate n s) s.
Proof.
  revert s. induction n as [|n IH]; intros [|c s]; cbn; auto.
Qed.

Lemma truncate_length (n : nat) (s : string) : (String.length (truncate n s) <= n)%nat.
Proof.
  revert s. induction n as [|n IH]; intros [|c s]; cbn; try lia.
  specialize (IH s). lia.
Qed.

Lemma truncate_no_space (n : nat) (s : string) :
  ~ has_space s -> ~ has_space (truncate n s).
Proof.
  revert s. induction n as [|n IH]; intros [|c s]; cbn; try tauto.
  intros Hs [Hc | Hrest]; [tauto | exact (IH s (fun H => Hs (or_intror H)) Hrest)].
Qed.

Lemma before_first_space_is_prefix (s : string) : is_prefix (before_first_space s) s.
Proof.
  induction s as [|c s IH]; cbn; [exact I|].
  destruct (Ascii.eqb c " "); cbn; auto.
Qed.

Lemma before_first_space_no_space (s : string) : ~ has_space (before_first_space s).
Proof.
  induction s as [|c s IH]; cbn; [tauto|].
  destruct (Ascii.eqb_spec c " ") as [-> | Hc]; cbn; tauto.
Qed.

Lemma before_first_space_id (s : string) : ~ has_space s -> before_first_space s = s.
Proof.
  induction s as [|c s IH]; cbn; [reflexivity|].
  intros Hs. destruct (Ascii.eqb_spec c " ") as [-> | Hc]; [tauto|].
  f_equal. apply IH. tauto.
Qed.

(** The two ways [queryOperation] goes, by the first byte of the text. *)
Lemma queryOperation_cases (name : string) :
  ((exists rest, name = String " " rest) /\ queryOperation name = truncate 16 name)
  \/ ((forall rest, name <> String " " rest)
      /\ queryOperation name = truncate 16 (before_first_space name)).
Proof.
  destruct name as [|c rest].
  - right. split; [discriminate | reflexivity].
  - destruct (Ascii.eqb_spec c " ") as [-> | Hc].
    + left. split; [eauto | apply queryOperation_leading_space].
    + right. assert (Hlead : forall r, String c rest <> String " " r) by congruence.
      split; [exact Hlead | exact (queryOperation_no_leading_space _ Hlead)].
Qed.

(** X1. The operation name taken from a query text is a beginning of
    that text and has at most 16 bytes; the name of any event, keyword or
    not, has at most 16 bytes. *)
Theorem operation_name_is_short_prefix :
  (forall name, is_prefix (queryOperation name) name
                /\ (String.length (queryOperation name) <= 16)%nat)
  /\ (forall event, (String.length (eventOperation event) <= 16)%nat).
Proof.
  assert (Hq : forall name, is_prefix (queryOperation name) name
                 /\ (String.length (queryOperation name) <= 16)%nat).
  { intros name.
    destruct (queryOperation_cases name) as [[_ ->] | [_ ->]].
    - split; [apply truncate_is_prefix | apply truncate_length].
    - split; [|apply truncate_length].
      eapply is_prefix_trans; [apply truncate_is_prefix|].
      apply before_first_space_is_prefix. }
  split; [exact Hq|].
  intros [kind query start err]. unfold eventOperation. cbn [ev_QueryAppender ev_Query].
  destruct kind; try (cbn; lia). apply Hq.
Qed.

(** X2. The name taken from a query text is empty only when the text
    is: a text that begins with a space is kept, not cut to nothing. *)
Theorem queryOperation_empty_iff (name : string) :
  queryOperation name = "" <-> name = "".
Proof.
  split; [|intros ->; reflexivity].
  destruct (queryOperation_cases name) as [[[rest ->] ->] | [Hlead ->]].
  - discriminate.
  - destruct name as [|c rest]; [reflexivity|]. cbn.
    destruct (Ascii.eqb_spec c " ") as [-> | _]; [|discriminate].
    exfalso. exact (Hlead rest eq_refl).
Qed.

(** X3. A name taken from a query text has a space in it only when
    the text begins with a space. *)
Theorem queryOperation_space_only_if_leading (name : string) :
  has_space (queryOperation name) -> exists rest, name = String " " rest.
Proof.
  destruct (queryOperation_cases name) as [[Hlead _] | [_ ->]]; [intros _; exact Hlead|].
  intros Hs. exfalso.
  exact (truncate_no_space 16 _ (before_first_space_no_space name) Hs).
Qed.

Lemma queryOperation_space_only_if_leading_witness :
  exists rest, " SELECT 1" = String " " rest.
Proof.
  apply (queryOperation_space_only_if_leading " SELECT 1").
  vm_compute. left. reflexivity.
Defined.

Lemma truncate_truncate (n : nat) (s : string) : truncate n (truncate n s) = truncate n s.
Proof.
  apply truncate_short. apply truncate_length.
Qed.

(** X4. Taking the name of a name changes nothing. *)
Theorem queryOperation_idempotent (name : string) :
  queryOperation (queryOperation name) = queryOperation name.
Proof.
  destruct (queryOperation_cases name) as [[[rest ->] Hq] | [Hlead Hq]].
  - rewrite Hq. change (truncate 16 (String " " rest))
      with (String " " (truncate 15 rest)).
    rewrite queryOperation_leading_space.
    change (String " " (truncate 15 rest)) with (truncate 16 (String " " rest)).
    apply truncate_truncate.
  - rewrite Hq.
    assert (Hns : ~ has_space (truncate 16 (before_first_space name)))
      by (apply truncate_no_space, before_first_space_no_space).
    destruct (queryOperation_cases (truncate 16 (before_first_space name)))
      as [[[rest Hrest] _] | [_ ->]].
    + exfalso. apply Hns. rewrite Hrest. left. reflexivity.
    + rewrite (before_first_space_id _ Hns). apply truncate_truncate.
Qed.

(** ** [FromEnv] over several variables *)

Section EnvFacts.
Context `{TemplateEngine}.

Lemma FromEnv_loop_skips_unset (env : gmap string string) (unset keys : list string)
  (h : QueryHook Template) :
  Forall (fun k => env !! k = None) unset ->
  FromEnv_loop env (unset ++ keys) h = FromEnv_loop env keys h.
Proof.
  induction 1 as [|k unset Hk _ IH]; cbn [app FromEnv_loop]; [reflexivity|].
  rewrite Hk. exact IH.
Qed.

(** X5. [FromEnv] looks the variables up in the order given and the
    first one that is set decides alone, an empty value included; the
    variables after it are not read. When none of the named variables is
    set the hook is returned as it was. *)
Theorem FromEnv_first_set_variable_decides (env : gmap string string)
  (unset : list string) (key : string) (rest : list string) (h : QueryHook Template) :
  Forall (fun k => env !! k = None) unset ->
  (is_Some (env !! key) ->
   FromEnv env (unset ++ key :: rest) h = FromEnv env [key] h)
  /\ (unset <> [] -> FromEnv env unset h = Ok h).
Proof.
  intros Hunset. split.
  - intros [v Hv]. unfold FromEnv.
    destruct (unset ++ key :: rest)%list as [|k0 ks] eqn:Hkeys.
    { destruct unset; discriminate. }
    rewrite <- Hkeys. rewrite (FromEnv_loop_skips_unset env unset _ h Hunset).
    cbn [FromEnv_loop]. rewrite Hv. reflexivity.
  - intros Hne. unfold FromEnv. destruct unset as [|k ks]; [contradiction|].
    rewrite <- (app_nil_r (k :: ks)).
    rewrite (FromEnv_loop_skips_unset env (k :: ks) [] h Hunset). reflexivity.
Qed.

Lemma FromEnv_loop_first_set (env : gmap string string) (keys : list string)
  (h : QueryHook Template) :
  FromEnv_loop env keys h =
  match first_set env keys with
  | Some v => mkQueryHook (negb (String.eqb v "") && negb (String.eqb v "0"))
                (String.eqb v "2") (opts h) (errorTemplate h) (messageTemplate h)
  | None => h
  end.
Proof.
  induction keys as [|key keys IH]; cbn [FromEnv_loop first_set]; [reflexivity|].
  destruct (env !! key); [reflexivity | exact IH].
Qed.

Lemma first_set_some (env : gmap string string) (keys : list string) :
  (exists k, In k keys /\ is_Some (env !! k)) -> is_Some (first_set env keys).
Proof.
  induction keys as [|key keys IH]; intros (k & Hin & Hset); [destruct Hin|].
  cbn [first_set]. destruct (env !! key) as [v|] eqn:Hv; [eauto|].
  apply IH. destruct Hin as [-> | Hin]; [|eauto].
  rewrite Hv in Hset. destruct Hset as [? [=]].
Qed.

(** X6. When one of the named variables is set, the flags [FromEnv]
    leaves do not depend on the flags it found, so it overrides an
    earlier [WithEnabled] or [WithVerbose]; and it never leaves a hook
    verbose without leaving it enabled. *)
Theorem FromEnv_overrides_earlier_flags (env : gmap string string)
  (keys : list string) (h1 h2 : QueryHook Template) :
  (exists k, In k keys /\ is_Some (env !! k)) ->
  opts h1 = opts h2 ->
  errorTemplate h1 = errorTemplate h2 ->
  messageTemplate h1 = messageTemplate h2 ->
  exists h', FromEnv env keys h1 = Ok h' /\ FromEnv env keys h2 = Ok h'
             /\ (verbose h' = true -> enabled h' = true).
Proof.
  intros Hset Ho He Hm. unfold FromEnv.
  assert (Hkeys : match keys with [] => ["BUNDEBUG"] | _ => keys end = keys).
  { destruct keys; [|reflexivity]. destruct Hset as (k & [] & _). }
  rewrite Hkeys, !FromEnv_loop_first_set.
  destruct (first_set_some env keys Hset) as [v ->].
  eexists. split; [reflexivity|]. split; [rewrite Ho, He, Hm; reflexivity|].
  cbn [verbose enabled].
  destruct (String.eqb_spec v "2") as [-> | _]; [reflexivity | discriminate].
Qed.

(** X7. Running [FromEnv] on the same environment a second time
    changes nothing. *)
Theorem FromEnv_idempotent (env : gmap string string) (keys : list string)
  (h : QueryHook Template) :
  (h' <- FromEnv env keys h ;; FromEnv env keys h') = FromEnv env keys h.
Proof.
  unfold FromEnv. cbn [bind]. f_equal.
  rewrite !FromEnv_loop_first_set.
  destruct (first_set env _); reflexivity.
Qed.
End EnvFacts.

Lemma FromEnv_first_set_variable_decides_witness :
  @FromEnv scenario_engine (<["OTHER" := "2"]> {["BUNDEBUG" := ""]})
    ["APPDEBUG"; "BUNDEBUG"; "OTHER"] (scenario_hook true true (scenario_options 0%nat))
  = @FromEnv scenario_engine (<["OTHER" := "2"]> {["BUNDEBUG" := ""]})
      ["BUNDEBUG"] (scenario_hook true true (scenario_options 0%nat))
  /\ @FromEnv scenario_engine (<["OTHER" := "2"]> {["BUNDEBUG" := ""]})
       ["APPDEBUG"] (scenario_hook true true (scenario_options 0%nat))
     = Ok (scenario_hook true true (scenario_options 0%nat)).
Proof.
  assert (Hunset : Forall (fun k => (<["OTHER" := "2"]> {["BUNDEBUG" := ""]}
                                      : gmap string string) !! k = None) ["APPDEBUG"]).
  { constructor; [vm_compute; reflexivity | constructor]. }
  destruct (@FromEnv_first_set_variable_decides scenario_engine
              (<["OTHER" := "2"]> {["BUNDEBUG" := ""]}) ["APPDEBUG"] "BUNDEBUG" ["OTHER"]
              (scenario_hook true true (scenario_options 0%nat)) Hunset)
    as [Hfirst Hnone].
  split.
  - apply Hfirst. exists "". vm_compute. reflexivity.
  - apply Hnone. discriminate.
Defined.

Lemma FromEnv_overrides_earlier_flags_witness :
  exists h',
    @FromEnv scenario_engine {["BUNDEBUG" := "0"]} ["BUNDEBUG"]
      (scenario_hook true true (scenario_options 0%nat)) = Ok h'
    /\ @FromEnv scenario_engine {["BUNDEBUG" := "0"]} ["BUNDEBUG"]
         (scenario_hook false false (scenario_options 0%nat)) = Ok h'
    /\ (verbose h' = true -> enabled h' = true).
Proof.
  apply (@FromEnv_overrides_earlier_flags scenario_engine).
  - exists "BUNDEBUG". split; [left; reflexivity|]. exists "0". vm_compute. reflexivity.
  - reflexivity.
  - reflexivity.
  - reflexivity.
Defined.

(** ** How the options compose *)

Section Composition.
Context `{TemplateEngine}.

(** X8. [WithQueryHookOptions] and an option that sets flags
    ([WithEnabled], [WithVerbose], [FromEnv]) can be given in either
    order: the constructor builds the same hook, or panics with the same
    parse error. *)
Theorem settings_and_flags_commute (o : QueryHookOptions) (f : Option)
  (h : QueryHook Template) :
  flag_option f ->
  apply_options [WithQueryHookOptions o; f] h
  = apply_options [f; WithQueryHookOptions o] h.
Proof.
  intros Hf. cbn [apply_options]. unfold WithQueryHookOptions.
  destruct Hf as [on | on | env keys]; unfold WithEnabled, WithVerbose, FromEnv;
    cbn [bind enabled verbose];
    destruct (template_Parse "ErrorTemplate" _) as [et|err]; try reflexivity;
    destruct (template_Parse "MessageTemplate" _) as [mt|err]; try reflexivity.
  cbn [bind]. rewrite !FromEnv_loop_first_set.
  destruct (first_set env _); reflexivity.
Qed.

(** X9. Of two [WithQueryHookOptions] the later one wins entirely:
    once the earlier one has run, the later one leaves the hook it would
    have left without it. Likewise for [WithEnabled] and [WithVerbose]. *)
Theorem later_option_replaces_earlier (h : QueryHook Template) :
  (forall o1 o2 h1,
      WithQueryHookOptions o1 h = Ok h1 ->
      WithQueryHookOptions o2 h1 = WithQueryHookOptions o2 h)
  /\ (forall a b, apply_options [WithEnabled a; WithEnabled b] h = WithEnabled b h)
  /\ (forall a b, apply_options [WithVerbose a; WithVerbose b] h = WithVerbose b h).
Proof.
  split; [|split; reflexivity].
  intros o1 o2 h1 Hrun.
  destruct (WithQueryHookOptions_keeps_flags o1 h h1 Hrun) as [Hen Hverb].
  unfold WithQueryHookOptions. rewrite Hen, Hverb. reflexivity.
Qed.
End Composition.

Lemma settings_and_flags_commute_witness :
  @apply_options scenario_engine
    [WithQueryHookOptions (scenario_options 0%nat); FromEnv {["BUNDEBUG" := "2"]} []]
    new_QueryHook
  = @apply_options scenario_engine
      [FromEnv {["BUNDEBUG" := "2"]} []; WithQueryHookOptions (scenario_options 0%nat)]
      new_QueryHook.
Proof.
  apply (@settings_and_flags_commute scenario_engine). constructor.
Defined.

Lemma later_option_replaces_earlier_witness :
  @WithQueryHookOptions scenario_engine (scenario_options 0%nat)
    (scenario_hook true false (logger_only_options 1%nat))
  = @WithQueryHookOptions scenario_engine (scenario_options 0%nat)
      (mkQueryHook true false None None None).
Proof.
  destruct (@later_option_replaces_earlier scenario_engine
              (mkQueryHook true false None None None)) as [Hsettings _].
  apply (Hsettings (logger_only_options 1%nat)). reflexivity.
Defined.

(** ** What the constructor guarantees *)

Section Constructor.
Context `{TemplateEngine}.

Lemma apply_quiet_options (options : list Option) (h h' : QueryHook Template) :
  Forall quiet_option options ->
  apply_options options h = Ok h' -> enabled h' = enabled h.
Proof.
  intros Hall. revert h. induction Hall as [|opt rest Hopt _ IH]; intros h.
  - intros [= <-]. reflexivity.
  - cbn [apply_options]. destruct (opt h) as [h1|p] eqn:Hrun; cbn [bind]; [|discriminate].
    intros Hrest. rewrite (IH h1 Hrest).
    destruct Hopt as [on | o].
    + injection Hrun as <-. reflexivity.
    + exact (proj1 (WithQueryHookOptions_keeps_flags o h h1 Hrun)).
Qed.

(** X10. A hook built without [WithEnabled] and without [FromEnv],
    the way the README's first example and the tests build it, is
    disabled: [AfterQuery] logs nothing and does not panic, for any
    event. *)
Theorem NewQueryHook_is_disabled_by_default (options : list Option)
  (h : QueryHook Template) :
  Forall quiet_option options ->
  NewQueryHook options = Ok h ->
  enabled h = false /\ forall now event, AfterQuery h now event = Ok [].
Proof.
  intros Hall. unfold NewQueryHook.
  destruct (apply_options options new_QueryHook) as [h0|p] eqn:Hrun; cbn [bind];
    [|discriminate].
  destruct (opts h0); [|discriminate]. intros [= <-].
  assert (Hoff : enabled h0 = false) by exact (apply_quiet_options options _ _ Hall Hrun).
  split; [exact Hoff|]. intros now event. apply AfterQuery_gated. left. exact Hoff.
Qed.

Lemma fill_defaults_templates (o : QueryHookOptions) :
  ErrorTemplate (fill_defaults o) <> "" /\ MessageTemplate (fill_defaults o) <> "".
Proof.
  unfold fill_defaults.
  destruct (String.eqb_spec (ErrorTemplate o) "") as [He | He];
    cbn [MessageTemplate ErrorTemplate];
    destruct (String.eqb_spec (MessageTemplate o) "") as [Hm | Hm];
    cbn [MessageTemplate ErrorTemplate]; split;
    solve [assumption | discriminate].
Qed.

Lemma package_option_consistent (opt : Option) (h h' : QueryHook Template) :
  package_option opt ->
  settings_consistent h -> opt h = Ok h' -> settings_consistent h'.
Proof.
  intros [on | on | env keys | o] Hwf.
  - intros [= <-]. exact Hwf.
  - intros [= <-]. exact Hwf.
  - unfold FromEnv. intros [= <-]. rewrite FromEnv_loop_first_set.
    destruct (first_set env _); exact Hwf.
  - unfold WithQueryHookOptions.
    destruct (template_Parse "ErrorTemplate" _) as [et|err] eqn:Het; [|discriminate].
    destruct (template_Parse "MessageTemplate" _) as [mt|err] eqn:Hmt; [|discriminate].
    intros [= <-]. unfold settings_consistent. cbn [opts errorTemplate messageTemplate].
    destruct (fill_defaults_templates o) as [He Hm].
    split; [exact He|]. split; [exact Hm|]. split; eauto.
Qed.

Lemma apply_package_options_consistent (options : list Option)
  (h h' : QueryHook Template) :
  Forall package_option options ->
  settings_consistent h -> apply_options options h = Ok h' -> settings_consistent h'.
Proof.
  intros Hall. revert h. induction Hall as [|opt rest Hopt _ IH]; intros h Hwf.
  - intros [= <-]. exact Hwf.
  - cbn [apply_options]. destruct (opt h) as [h1|p] eqn:Hrun; cbn [bind]; [|discriminate].
    apply IH. exact (package_option_consistent opt h h1 Hopt Hwf Hrun).
Qed.

(** X11. A hook that [NewQueryHook] returns for options of the
    package has its settings, with two non-empty template texts, and has
    both templates parsed from these texts. On such a hook [AfterQuery]
    meets a nil pointer only in the [Logger] field of the settings. *)
Theorem NewQueryHook_builds_consistent_hook (options : list Option)
  (h : QueryHook Template) :
  Forall package_option options ->
  NewQueryHook options = Ok h ->
  exists o, opts h = Some o /\ settings_consistent h
            /\ forall now event,
                 AfterQuery h now event = Panicked PanicNilDereference ->
                 Logger o = None.
Proof.
  intros Hall. unfold NewQueryHook.
  destruct (apply_options options new_QueryHook) as [h0|p] eqn:Hrun; cbn [bind];
    [|discriminate].
  destruct (opts h0) as [o|] eqn:Ho; [|discriminate]. intros [= <-].
  assert (Hwf : settings_consistent h0).
  { apply (apply_package_options_consistent options new_QueryHook h0 Hall);
      [split; reflexivity | exact Hrun]. }
  exists o. split; [exact Ho|]. split; [exact Hwf|].
  intros now event. unfold settings_consistent in Hwf. rewrite Ho in Hwf.
  destruct Hwf as (_ & _ & (et & _ & Het) & (mt & _ & Hmt)).
  unfold AfterQuery.
  destruct (negb (enabled h0)); [discriminate|].
  destruct (negb (verbose h0) && quiet_outcome (ev_Err event)); [discriminate|].
  rewrite Ho. cbn [deref bind].
  destruct (classify o _ _) as [isError level].
  destruct (N.eqb level 0); [discriminate|].
  rewrite Het, Hmt. unfold execute. cbn [deref bind].
  assert (Hdispatch : forall msg, dispatch o level msg = Panicked PanicNilDereference ->
                                  Logger o = None).
  { intros msg. unfold dispatch.
    destruct (Logger o); [|reflexivity]. cbn [deref bind].
    repeat match goal with
           | |- context [N.eqb level ?l] => destruct (N.eqb level l)
           end; discriminate. }
  destruct isError;
    match goal with
    | |- context [template_Execute ?t ?a] => destruct (template_Execute t a) as [msg|err]
    end; cbn [bind]; try discriminate; apply Hdispatch.
Qed.
End Constructor.

(** The hook of the test [TestQueryHookModifications]. *)
Lemma NewQueryHook_is_disabled_by_default_witness :
  exists h,
    @NewQueryHook scenario_engine
      [WithQueryHookOptions (logger_only_options 0%nat); WithVerbose true] = Ok h
    /\ enabled h = false
    /\ forall now event, AfterQuery h now event = Ok [].
Proof.
  eexists. split; [vm_compute; reflexivity|].
  apply (@NewQueryHook_is_disabled_by_default scenario_engine
           [WithQueryHookOptions (logger_only_options 0%nat); WithVerbose true]).
  - repeat constructor.
  - vm_compute. reflexivity.
Defined.

Lemma NewQueryHook_builds_consistent_hook_witness :
  exists o,
    opts (scenario_hook true true (scenario_options 0%nat)) = Some o
    /\ settings_consistent (scenario_hook true true (scenario_options 0%nat))
    /\ forall now event,
         AfterQuery (scenario_hook true true (scenario_options 0%nat)) now event
         = Panicked PanicNilDereference ->
         Logger o = None.
Proof.
  apply (@NewQueryHook_builds_consistent_hook scenario_engine
           [WithEnabled true; WithVerbose true;
            WithQueryHookOptions (scenario_options 0%nat)]).
  - repeat constructor.
  - exact (scenario_hook_built true true 0%nat).
Defined.

(** ** What [AfterQuery] logs *)

Section Logging.
Context `{TemplateEngine}.

Lemma dispatch_call (o : QueryHookOptions) (level : Level) (msg : string)
  (calls : list FieldLogger.Call) :
  N.eqb level 0 = false ->
  dispatch o level msg = Ok calls ->
  exists log m, Logger o = Some log /\ calls = [FieldLogger.mkCall log m msg]
                /\ level_of_method m = level.
Proof.
  intros Hnz. unfold dispatch.
  repeat match goal with
         | |- context [N.eqb level ?l] => destruct (N.eqb_spec level l) as [-> | ?]
         end;
    try discriminate Hnz; try discriminate;
    destruct (Logger o) as [log|]; cbn [deref bind]; try discriminate;
    intros [= <-]; eexists; eexists; (split; [reflexivity|]);
    (split; [reflexivity|]); reflexivity.
Qed.

(** X12. Settings whose three levels are left at zero, such as
    [QueryHookOptions{Logger: log}], silence the hook: whatever the
    flags and the event, [AfterQuery] logs nothing and does not panic. *)
Theorem AfterQuery_silent_when_levels_unset (h : QueryHook Template)
  (o : QueryHookOptions) (now : time_Time) (event : QueryEvent) :
  opts h = Some o ->
  QueryLevel o = 0%N -> SlowLevel o = 0%N -> ErrorLevel o = 0%N ->
  AfterQuery h now event = Ok [].
Proof.
  intros Ho Hq Hs He. apply (AfterQuery_level_zero h now event o Ho).
  unfold classify.
  destruct (ev_Err event) as [[| |msg]|];
    try destruct ((0 <? LogSlow o) && _); cbn [snd]; assumption.
Qed.

(** X13. [AfterQuery] makes at most one call on the logger. When it
    makes one, the hook is enabled, the event passed the verbose gate,
    the call is on the logger of the settings, with the method of the
    resolved level, and its message is the text of the error template for
    an error and of the message template otherwise, executed on the
    event's variables. *)
Theorem AfterQuery_call_is_the_rendered_event (h : QueryHook Template)
  (now : time_Time) (event : QueryEvent) (calls : list FieldLogger.Call) :
  AfterQuery h now event = Ok calls ->
  calls = []
  \/ exists o log m t msg,
       calls = [FieldLogger.mkCall log m msg]
       /\ enabled h = true
       /\ (verbose h = true \/ quiet_outcome (ev_Err event) = false)
       /\ opts h = Some o /\ Logger o = Some log
       /\ level_of_method m
          = snd (classify o (Time_Sub now (ev_StartTime event)) (ev_Err event))
       /\ m <> FieldLogger.Panic
       /\ chosen_template h
            (fst (classify o (Time_Sub now (ev_StartTime event)) (ev_Err event)))
          = Some t
       /\ template_Execute t (entry_vars now event) = inl msg.
Proof.
  unfold AfterQuery.
  destruct (enabled h) eqn:Hon; cbn [negb]; [|intros [= <-]; left; reflexivity].
  destruct (negb (verbose h) && quiet_outcome (ev_Err event)) eqn:Hgate;
    [intros [= <-]; left; reflexivity|].
  destruct (opts h) as [o|] eqn:Ho; cbn [deref bind]; [|discriminate].
  destruct (classify o _ _) as [isError level] eqn:Hclass.
  destruct (N.eqb level 0) eqn:Hnz; [intros [= <-]; left; reflexivity|].
  replace (if isError then execute (errorTemplate h) (entry_vars now event)
           else execute (messageTemplate h) (entry_vars now event))
    with (execute (chosen_template h isError) (entry_vars now event))
    by (destruct isError; reflexivity).
  unfold execute.
  destruct (chosen_template h isError) as [t|] eqn:Hchosen; cbn [deref bind];
    [|discriminate].
  destruct (template_Execute t (entry_vars now event)) as [msg|err] eqn:Hexec;
    cbn [bind]; [|discriminate].
  intros Hdispatch. right.
  destruct (dispatch_call o level msg calls Hnz Hdispatch) as (log & m & Hlog & -> & Hm).
  exists o, log, m, t, msg. rewrite Hclass. cbn [fst snd].
  split; [reflexivity|]. split; [reflexivity|]. split.
  { destruct (verbose h); [left; reflexivity|]. right.
    destruct (quiet_outcome (ev_Err event)); [discriminate Hgate | reflexivity]. }
  split; [reflexivity|]. split; [exact Hlog|]. split; [exact Hm|]. split.
  { intros ->. cbn in Hm. subst level. discriminate Hnz. }
  split; [exact Hchosen | exact Hexec].
Qed.

(** X14. The other way round: for an enabled hook and an event past
    the verbose gate, when the resolved level is the level of one of the
    methods [Debug], [Info], [Warn], [Error], [Fatal], the settings have
    a logger and the chosen template executes, [AfterQuery] makes exactly
    that one call. *)
Theorem AfterQuery_logs_the_rendered_event (h : QueryHook Template)
  (now : time_Time) (event : QueryEvent) (o : QueryHookOptions)
  (log : FieldLogger.t) (m : FieldLogger.Method) (isError : bool)
  (t : Template) (msg : string) :
  enabled h = true ->
  verbose h = true \/ quiet_outcome (ev_Err event) = false ->
  opts h = Some o ->
  Logger o = Some log ->
  classify o (Time_Sub now (ev_StartTime event)) (ev_Err event)
    = (isError, level_of_method m) ->
  m <> FieldLogger.Panic ->
  chosen_template h isError = Some t ->
  template_Execute t (entry_vars now event) = inl msg ->
  AfterQuery h now event = Ok [FieldLogger.mkCall log m msg].
Proof.
  intros Hon Hgate Ho Hlog Hclass Hm Ht Hexec.
  assert (Hnz : level_of_method m <> 0%N) by (destruct m; solve [discriminate | congruence]).
  rewrite (AfterQuery_body h now event o isError _ Hon Hgate Ho Hclass Hnz).
  unfold execute. rewrite Ht. cbn [deref bind]. rewrite Hexec. cbn [bind].
  unfold dispatch. rewrite Hlog. destruct m; reflexivity.
Qed.

(** X15. For an event that failed with an error other than
    [sql.ErrNoRows] and [sql.ErrTxDone] the verbose flag makes no
    difference: two hooks that differ in it only behave alike. *)
Theorem AfterQuery_failure_ignores_verbose (h : QueryHook Template)
  (verb : bool) (now : time_Time) (event : QueryEvent) :
  quiet_outcome (ev_Err event) = false ->
  AfterQuery (mkQueryHook (enabled h) verb (opts h) (errorTemplate h)
                (messageTemplate h)) now event
  = AfterQuery h now event.
Proof.
  intros Hfail. unfold AfterQuery. cbn [enabled verbose opts errorTemplate messageTemplate].
  rewrite Hfail, !andb_false_r. reflexivity.
Qed.
End Logging.

Lemma AfterQuery_silent_when_levels_unset_witness :
  AfterQuery (scenario_hook true true (logger_only_options 0%nat)) (2 * Second)
    (scenario_event 0 None) = Ok [].
Proof.
  apply (@AfterQuery_silent_when_levels_unset scenario_engine) with
    (o := fill_defaults (logger_only_options 0%nat)); reflexivity.
Defined.

Lemma AfterQuery_call_is_the_rendered_event_witness :
  [FieldLogger.mkCall 0%nat FieldLogger.Warn "SELECT[2s]: SELECT * FROM users"] = []
  \/ exists o log m t msg,
       [FieldLogger.mkCall 0%nat FieldLogger.Warn "SELECT[2s]: SELECT * FROM users"]
       = [FieldLogger.mkCall log m msg]
       /\ enabled (scenario_hook true true (scenario_options 0%nat)) = true
       /\ (verbose (scenario_hook true true (scenario_options 0%nat)) = true
           \/ quiet_outcome (ev_Err (scenario_event 0 None)) = false)
       /\ opts (scenario_hook true true (scenario_options 0%nat)) = Some o
       /\ Logger o = Some log
       /\ level_of_method m
          = snd (classify o (Time_Sub (2 * Second) (ev_StartTime (scenario_event 0 None)))
                   (ev_Err (scenario_event 0 None)))
       /\ m <> FieldLogger.Panic
       /\ chosen_template (scenario_hook true true (scenario_options 0%nat))
            (fst (classify o
                    (Time_Sub (2 * Second) (ev_StartTime (scenario_event 0 None)))
                    (ev_Err (scenario_event 0 None))))
          = Some t
       /\ @template_Execute scenario_engine t
            (entry_vars (2 * Second) (scenario_event 0 None)) = inl msg.
Proof.
  apply (@AfterQuery_call_is_the_rendered_event scenario_engine).
  vm_compute. reflexivity.
Defined.

(** A verbose hook on a query that met [sql.ErrTxDone] after one
    second. *)
Lemma AfterQuery_logs_the_rendered_event_witness :
  AfterQuery (scenario_hook true true (scenario_options 0%nat)) Second
    (scenario_event 0 (Some ErrTxDone))
  = Ok [FieldLogger.mkCall 0%nat FieldLogger.Error
          ("SELECT[1s]: SELECT * FROM users: "
           +:+ "sql: transaction has already been committed or rolled back")].
Proof.
  eapply (@AfterQuery_logs_the_rendered_event scenario_engine) with
    (o := fill_defaults (scenario_options 0%nat)) (isError := true).
  - reflexivity.
  - left. reflexivity.
  - reflexivity.
  - reflexivity.
  - reflexivity.
  - discriminate.
  - reflexivity.
  - vm_compute. reflexivity.
Defined.

Lemma AfterQuery_failure_ignores_verbose_witness :
  AfterQuery
    (mkQueryHook (enabled (scenario_hook true true (scenario_options 0%nat))) false
       (opts (scenario_hook true true (scenario_options 0%nat)))
       (errorTemplate (scenario_hook true true (scenario_options 0%nat)))
       (messageTemplate (scenario_hook true true (scenario_options 0%nat))))
    Second (scenario_event 0 (Some (OtherError "boom")))
  = AfterQuery (scenario_hook true true (scenario_options 0%nat)) Second
      (scenario_event 0 (Some (OtherError "boom"))).
Proof.
  apply (@AfterQuery_failure_ignores_verbose scenario_engine). reflexivity.
Defined.

(** ** The first revision and the options *)

Section Revisions.
Context `{TemplateEngine}.

(** X16. The functional options extend the first revision: for the
    same settings, [NewQueryHook(WithEnabled(true), WithVerbose(true),
    WithQueryHookOptions(opts))] panics exactly when the first
    [NewQueryHook(opts)] does, with the same error, and otherwise the two
    hooks answer every event alike. *)
Theorem enabled_verbose_hook_is_first_revision (o : QueryHookOptions) :
  match V1.NewQueryHook o,
        NewQueryHook [WithEnabled true; WithVerbose true; WithQueryHookOptions o] with
  | Ok h1, Ok h =>
      forall now event, V1.AfterQuery h1 now event = AfterQuery h now event
  | Panicked p1, Panicked p => p1 = p
  | _, _ => False
  end.
Proof.
  unfold V1.NewQueryHook, NewQueryHook, WithQueryHookOptions, WithEnabled, WithVerbose.
  cbn [apply_options bind enabled verbose opts errorTemplate messageTemplate].
  fold defaultErrorTemplate defaultMessageTemplate.
  change (if String.eqb (MessageTemplate
               (if String.eqb (ErrorTemplate o) "" then
                  mkQueryHookOptions (LogSlow o) (Logger o) (QueryLevel o) (SlowLevel o)
                    (ErrorLevel o) (MessageTemplate o) defaultErrorTemplate
                else o)) ""
          then _ else _) with (fill_defaults o).
  destruct (template_Parse "ErrorTemplate" _) as [et|err]; cbn [bind]; [|reflexivity].
  destruct (template_Parse "MessageTemplate" _) as [mt|err]; cbn [bind opts];
    [|reflexivity].
  intros now event. unfold V1.AfterQuery, AfterQuery, entry_vars, classify.
  cbn [enabled verbose opts errorTemplate messageTemplate negb andb deref bind
       V1.opts V1.errorTemplate V1.messageTemplate].
  reflexivity.
Qed.
End Revisions.
